(** * RangeRiteFastSample: burst capture and code-to-volts conversion

    A shallow embedding of the Arduino sketch [RangeRiteFastSample.ino]
    (ADS868x / ADS869x driver) and the properties of its register codec,
    range table, configurator, capture engine, post-processor and code
    converter.

    Integers of the sketch are [Z] with the wrap-around of their C type
    written out; [float] is IEEE 754 binary32 as given by the Standard
    Library's [SpecFloat] (24 bits of precision, round to nearest even);
    the hardware the sketch talks to (SPI bus, RVS pin, microsecond
    clock) is a record of input oracles, and everything the sketch does to
    it is appended to an event trace. *)

From Stdlib Require Import ZArith Lia Bool List QArith Qabs.
From Stdlib Require Import Floats.SpecFloat.
From stdpp Require Import base tactics option list.
From Stdlib Require Strings.String Strings.Ascii.

Local Open Scope Z_scope.

(** ** Machine integers *)

Definition u8 (x : Z) : Z := x mod 2 ^ 8.
Definition u16 (x : Z) : Z := x mod 2 ^ 16.
Definition u32 (x : Z) : Z := x mod 2 ^ 32.
#[global] Arguments u8 : simpl never.
#[global] Arguments u16 : simpl never.
#[global] Arguments u32 : simpl never.

(** ** Single-precision floats *)

Module F32.

Definition prec : Z := 24.
Definition emax : Z := 128.

(** [(float)z] for an integer [z]. *)
Definition of_Z (z : Z) : spec_float := binary_normalize prec emax z 0 false.

(** A decimal literal [n / 10^k] with the suffix [f]: both operands are
    exact in binary32 for the literals of the sketch, so the correctly
    rounded quotient is the value of the literal. *)
Definition lit (n : Z) (k : Z) : spec_float :=
  SFdiv prec emax (of_Z n) (of_Z (10 ^ k)).

(** A decimal literal without suffix is a [double]. *)
Definition lit64 (n : Z) (k : Z) : spec_float :=
  SFdiv 53 1024 (binary_normalize 53 1024 n 0 false)
                (binary_normalize 53 1024 (10 ^ k) 0 false).

(** [(float)d] for a double [d]. *)
Definition of_double (d : spec_float) : spec_float :=
  match d with
  | S754_finite s m e => binary_round prec emax s m e
  | _ => d
  end.

Definition add := SFadd prec emax.
Definition sub := SFsub prec emax.
Definition mul := SFmul prec emax.
Definition div := SFdiv prec emax.
Definition opp := SFopp.
Definition ltb := SFltb.

(** The exact rational value of a finite float. *)
Definition to_Q (x : spec_float) : Q :=
  match x with
  | S754_finite s m e => (inject_Z (cond_Zopp s (Zpos m)) * Qpower 2 e)%Q
  | _ => 0%Q
  end.

Definition is_finite (x : spec_float) : bool :=
  match x with
  | S754_finite _ _ _ | S754_zero _ => true
  | _ => false
  end.

End F32.

(** ** Pins and levels *)

Definition HIGH : bool := true.
Definition LOW : bool := false.

Definition PIN_CS : Z := 10.
Definition PIN_RVS : Z := 4.

(** ** Hardware and program state *)

(** What the sketch does to the outside world, and to its sample buffer,
    in the order it happens. *)
Inductive Event :=
| EvBeginTransaction
| EvEndTransaction
| EvDigitalWrite (pin : Z) (level : bool)
| EvTransfer (mosi miso : Z)
| EvDigitalRead (pin : Z) (level : bool)
| EvMicros (t : Z)
| EvLoad (i : Z)
| EvStore (i v : Z).

(** The inputs of a run: the byte the device shifts out on the k-th
    [SPI.transfer], the level of the RVS pin at the k-th [digitalRead] and
    the value of the k-th [micros()]. *)
Record Board := {
  spi_miso : nat -> Z;
  rvs_level : nat -> bool;
  clock_us : nat -> Z
}.

Record World := {
  board : Board;
  n_transfer : nat;
  n_read : nat;
  n_micros : nat;
  trace : list Event;
  vRange : Z;
  samples : list Z
}.

Definition emit (e : Event) (w : World) : World :=
  {| board := board w; n_transfer := n_transfer w; n_read := n_read w;
     n_micros := n_micros w; trace := trace w ++ [e];
     vRange := vRange w; samples := samples w |}.

Definition next_transfer (w : World) : World :=
  {| board := board w; n_transfer := S (n_transfer w); n_read := n_read w;
     n_micros := n_micros w; trace := trace w;
     vRange := vRange w; samples := samples w |}.

Definition next_read (w : World) : World :=
  {| board := board w; n_transfer := n_transfer w; n_read := S (n_read w);
     n_micros := n_micros w; trace := trace w;
     vRange := vRange w; samples := samples w |}.

Definition next_micros (w : World) : World :=
  {| board := board w; n_transfer := n_transfer w; n_read := n_read w;
     n_micros := S (n_micros w); trace := trace w;
     vRange := vRange w; samples := samples w |}.

Definition set_samples (l : list Z) (w : World) : World :=
  {| board := board w; n_transfer := n_transfer w; n_read := n_read w;
     n_micros := n_micros w; trace := trace w;
     vRange := vRange w; samples := l |}.

(** A call returns a value and a new state, or indexes [samples] outside
    its bounds, or is still spinning on RVS when the fuel runs out (the
    state reached so far is kept). *)
Inductive Outcome (A : Type) :=
| Done (a : A) (w : World)
| OutOfBounds (i : Z)
| Spinning (w : World).
Arguments Done {A} a w.
Arguments OutOfBounds {A} i.
Arguments Spinning {A} w.

Definition M (A : Type) : Type := World -> Outcome A.

Definition ret {A : Type} (a : A) : M A := fun w => Done a w.

Definition bind {A B : Type} (c : M A) (k : A -> M B) : M B :=
  fun w =>
    match c w with
    | Done a w' => k a w'
    | OutOfBounds i => OutOfBounds i
    | Spinning w' => Spinning w'
    end.

Declare Scope sketch_scope.
Delimit Scope sketch_scope with sketch.
Notation "x ← y ; z" := (bind y (fun x => z))
  (at level 20, y at level 100, z at level 200, only parsing) : sketch_scope.
Notation "x ;; z" := (bind x (fun _ => z))
  (at level 100, z at level 200, only parsing, right associativity) : sketch_scope.
Local Open Scope sketch_scope.

(** *** Arduino primitives *)

Definition digitalWrite (pin : Z) (level : bool) : M unit :=
  fun w => Done tt (emit (EvDigitalWrite pin level) w).

Definition digitalRead (pin : Z) : M bool :=
  fun w =>
    let v := rvs_level (board w) (n_read w) in
    Done v (emit (EvDigitalRead pin v) (next_read w)).

Definition SPI_transfer (b : Z) : M Z :=
  fun w =>
    let r := u8 (spi_miso (board w) (n_transfer w)) in
    Done r (emit (EvTransfer b r) (next_transfer w)).

Definition SPI_beginTransaction : M unit :=
  fun w => Done tt (emit EvBeginTransaction w).

Definition SPI_endTransaction : M unit :=
  fun w => Done tt (emit EvEndTransaction w).

Definition micros : M Z :=
  fun w =>
    let t := u32 (clock_us (board w) (n_micros w)) in
    Done t (emit (EvMicros t) (next_micros w)).

(** *** Globals *)

Definition get_vRange : M Z := fun w => Done (vRange w) w.

(** [samples[i]] as an rvalue and as the target of an assignment; the
    array has the entries the list has. *)
Definition in_bounds (i : Z) (w : World) : bool :=
  (0 <=? i) && (i <? Z.of_nat (length (samples w))).

Definition samples_load (i : Z) : M Z :=
  fun w =>
    if in_bounds i w then
      match samples w !! Z.to_nat i with
      | Some v => Done v (emit (EvLoad i) w)
      | None => OutOfBounds i
      end
    else OutOfBounds i.

Definition samples_store (i v : Z) : M unit :=
  fun w =>
    if in_bounds i w then
      Done tt (emit (EvStore i v) (set_samples (<[Z.to_nat i := v]> (samples w)) w))
    else OutOfBounds i.

(** *** Loops *)

(** [while (!cond()) { }] bounded by [fuel] evaluations of the condition. *)
Fixpoint spin_until (cond : M bool) (fuel : nat) : M unit :=
  match fuel with
  | O => fun w => Spinning w
  | S fuel' => r ← cond; if r then ret tt else spin_until cond fuel'
  end.

(** [for (uint32_t i = i0; i < N; ++i) body], whose body changes neither
    [i] nor [N]: the [n = N - i0] iterations it makes, [i] going up by one
    (as a [uint32_t]) each time. *)
Fixpoint for_loop (n : nat) (i : Z) (body : Z -> M unit) : M unit :=
  match n with
  | O => ret tt
  | S n' => body i ;; for_loop n' (u32 (i + 1)) body
  end.

(** *** Reading a trace *)

Definition sent_of (e : Event) : list Z :=
  match e with EvTransfer o _ => [o] | _ => [] end.
Definition select_of (e : Event) : list unit :=
  match e with
  | EvDigitalWrite pin level =>
      if (pin =? PIN_CS) && eqb level LOW then [tt] else []
  | _ => []
  end.
Definition poll_of (e : Event) : list bool :=
  match e with
  | EvDigitalRead pin v => if pin =? PIN_RVS then [v] else []
  | _ => []
  end.
Definition clock_of (e : Event) : list Z :=
  match e with EvMicros t => [t] | _ => [] end.
Definition access_of (e : Event) : list Z :=
  match e with EvLoad i => [i] | EvStore i _ => [i] | _ => [] end.
Definition store_of (e : Event) : list (Z * Z) :=
  match e with EvStore i v => [(i, v)] | _ => [] end.

(** Bytes put on MOSI, number of chip-select assertions (one per
    exchange), levels read from RVS, clock readings, indices used on
    [samples], and stores into [samples]. *)
Definition sent (tr : list Event) : list Z := flat_map sent_of tr.
Definition exchanges (tr : list Event) : nat := length (flat_map select_of tr).
Definition polls (tr : list Event) : list bool := flat_map poll_of tr.
Definition clock_reads (tr : list Event) : list Z := flat_map clock_of tr.
Definition accesses (tr : list Event) : list Z := flat_map access_of tr.
Definition stores (tr : list Event) : list (Z * Z) := flat_map store_of tr.

(** ** Build-time options *)

(** [ADSX_BITS] is 16 or 18; any other value is a compile error. *)
Inductive adsx_bits := Bits16 | Bits18.

Section Sketch.

Variable build : adsx_bits.

Definition ADSX_BITS : Z :=
  match build with Bits16 => 16 | Bits18 => 18 end.

Definition VOLT_REF : spec_float := F32.of_double (F32.lit64 4096 3).

Definition SAMPLE_COUNT : Z := 256.

Definition ADSX_REG_RANGE_SEL : Z := 0x14.
Definition ADSX_INTREF_ENABLE : Z := 0x0000.

Definition ADSX_RANGE_BIPOLAR_3X : Z := 0x0.
Definition ADSX_RANGE_BIPOLAR_2P5X : Z := 0x1.
Definition ADSX_RANGE_BIPOLAR_1P5X : Z := 0x2.
Definition ADSX_RANGE_BIPOLAR_1P25X : Z := 0x3.
Definition ADSX_RANGE_BIPOLAR_0P625X : Z := 0x4.
Definition ADSX_RANGE_UNIPOLAR_3X : Z := 0x8.
Definition ADSX_RANGE_UNIPOLAR_2P5X : Z := 0x9.
Definition ADSX_RANGE_UNIPOLAR_1P5X : Z := 0xA.
Definition ADSX_RANGE_UNIPOLAR_1P25X : Z := 0xB.

Definition ADSX_CODE_SHIFT : Z :=
  if ADSX_BITS =? 18 then 14 else 16.

Definition ADSX_CODE_MASK : Z :=
  if ADSX_BITS =? 18 then 0x3FFFF else 0xFFFF.

(** ** Range table *)

(** [adsxRangeMultiplier(code, isBipolar)]: the multiplier is returned and
    the polarity is written through the reference; here both come back as
    a pair. *)
Definition adsxRangeMultiplier (code : Z) : spec_float * bool :=
  let sel := Z.land code 0xF in
  if sel =? ADSX_RANGE_BIPOLAR_3X then (F32.lit 30 1, true)
  else if sel =? ADSX_RANGE_BIPOLAR_2P5X then (F32.lit 25 1, true)
  else if sel =? ADSX_RANGE_BIPOLAR_1P5X then (F32.lit 15 1, true)
  else if sel =? ADSX_RANGE_BIPOLAR_1P25X then (F32.lit 125 2, true)
  else if sel =? ADSX_RANGE_BIPOLAR_0P625X then (F32.lit 625 3, true)
  else if sel =? ADSX_RANGE_UNIPOLAR_3X then (F32.lit 30 1, false)
  else if sel =? ADSX_RANGE_UNIPOLAR_2P5X then (F32.lit 25 1, false)
  else if sel =? ADSX_RANGE_UNIPOLAR_1P5X then (F32.lit 15 1, false)
  else if sel =? ADSX_RANGE_UNIPOLAR_1P25X then (F32.lit 125 2, false)
  else (F32.lit 125 2, false).

(** ** Code converter *)

(** [adsxCodeToVolts(codeN)], reading the global [vRange]. *)
Definition adsxCodeToVolts (vRange : Z) (codeN : Z) : spec_float :=
  let codeN := if codeN >? ADSX_CODE_MASK then ADSX_CODE_MASK else codeN in
  let '(mult, bipolar) := adsxRangeMultiplier vRange in
  let vref := VOLT_REF in
  let PFS := F32.mul mult vref in
  let NFS := if bipolar then F32.opp PFS else F32.lit 0 1 in
  let FSR := F32.sub PFS NFS in
  let LSB := F32.div FSR (F32.of_Z (u32 (Z.shiftl 1 ADSX_BITS))) in
  F32.add NFS (F32.mul (F32.of_Z codeN) LSB).

(** ** Register protocol codec *)

Definition pack32 (r0 r1 r2 r3 : Z) : Z :=
  Z.lor (Z.lor (Z.lor (u32 (Z.shiftl r0 24)) (u32 (Z.shiftl r1 16)))
               (u32 (Z.shiftl r2 8))) r3.
#[global] Arguments pack32 : simpl never.

Definition xfer32 (b0 b1 b2 b3 : Z) : M Z :=
  digitalWrite PIN_CS LOW ;;
  r0 ← SPI_transfer b0;
  r1 ← SPI_transfer b1;
  r2 ← SPI_transfer b2;
  r3 ← SPI_transfer b3;
  digitalWrite PIN_CS HIGH ;;
  ret (pack32 r0 r1 r2 r3).

Definition frameNOP : M Z := xfer32 0x00 0x00 0x00 0x00.

Definition rvsReady : M bool :=
  v ← digitalRead PIN_RVS; ret (eqb v HIGH).

Definition writeRegHWord (addr data : Z) : M unit :=
  _ ← xfer32 0xD0 addr (u8 (Z.shiftr data 8)) (u8 data); ret tt.

(** ** Device configurator *)

Definition adsxConfigureBasic (fuel : nat) : M unit :=
  SPI_beginTransaction ;;
  vr ← get_vRange;
  writeRegHWord ADSX_REG_RANGE_SEL
    (u16 (Z.lor ADSX_INTREF_ENABLE (Z.land vr 0x0F))) ;;
  _ ← frameNOP;
  SPI_endTransaction ;;
  spin_until rvsReady fuel ;;
  SPI_beginTransaction ;;
  _ ← frameNOP;
  SPI_endTransaction.

(** ** Capture engine *)

Definition capture_fast (fuel : nat) (N : Z) : M Z :=
  SPI_beginTransaction ;;
  _ ← frameNOP;
  SPI_endTransaction ;;
  spin_until rvsReady fuel ;;
  t0 ← micros;
  SPI_beginTransaction ;;
  for_loop (Z.to_nat N) 0 (fun i =>
    spin_until rvsReady fuel ;;
    v ← frameNOP;
    samples_store i v) ;;
  SPI_endTransaction ;;
  t1 ← micros;
  ret (u32 (t1 - t0)).

(** ** Post-processor *)

Definition decode_sample (raw : Z) : Z :=
  Z.land (Z.shiftr raw ADSX_CODE_SHIFT) ADSX_CODE_MASK.

Definition decode_samples_in_place (N : Z) : M unit :=
  for_loop (Z.to_nat N) 0 (fun i =>
    raw ← samples_load i;
    samples_store i (decode_sample raw)).

End Sketch.

(** The state at power-up: a zeroed buffer of [SAMPLE_COUNT] entries and
    [vRange] as initialised by the sketch. *)
Definition boot (b : Board) (vr : Z) : World :=
  {| board := b; n_transfer := 0; n_read := 0; n_micros := 0; trace := [];
     vRange := vr; samples := replicate (Z.to_nat SAMPLE_COUNT) 0 |}.

Definition samples_ok (w : World) : Prop :=
  length (samples w) = Z.to_nat SAMPLE_COUNT.


(** ** Expected behaviour, in terms of the board *)

(** The state after [dt] transfers, [dr] reads of RVS and [dm] clock
    readings that left the events [delta] and the buffer [s]. *)
Definition advance (dt dr dm : nat) (delta : list Event) (s : list Z)
    (w : World) : World :=
  {| board := board w; n_transfer := n_transfer w + dt;
     n_read := n_read w + dr; n_micros := n_micros w + dm;
     trace := trace w ++ delta; vRange := vRange w; samples := s |}.

Definition set_vRange (v : Z) (w : World) : World :=
  {| board := board w; n_transfer := n_transfer w; n_read := n_read w;
     n_micros := n_micros w; trace := trace w;
     vRange := v; samples := samples w |}.

(** The byte, the four bytes and the 32-bit word received by the
    exchange that starts at transfer [n]. *)
Definition rx (b : Board) (n : nat) : Z := u8 (spi_miso b n).

Definition rx4 (b : Board) (n : nat) : list Z :=
  [rx b n; rx b (n + 1); rx b (n + 2); rx b (n + 3)].

Definition rx_word (b : Board) (n : nat) : Z :=
  pack32 (rx b n) (rx b (n + 1)) (rx b (n + 2)) (rx b (n + 3)).

(** One chip-select-framed exchange. *)
Definition exchange_trace (out inp : list Z) : list Event :=
  [EvDigitalWrite PIN_CS LOW] ++ zip_with EvTransfer out inp ++
  [EvDigitalWrite PIN_CS HIGH].

Definition nop_frame : list Z := [0x00; 0x00; 0x00; 0x00].

(** A ready-wait that read RVS low [k] times and then high. *)
Definition wait_trace (k : nat) : list Event :=
  replicate k (EvDigitalRead PIN_RVS LOW) ++ [EvDigitalRead PIN_RVS HIGH].

(** RVS reads high for the first time at the [k]-th read from [n]. *)
Definition first_ready (b : Board) (n k : nat) : Prop :=
  (forall j, (j < k)%nat -> rvs_level b (n + j) = false) /\
  rvs_level b (n + k) = true.

(** The device keeps answering: from any point on, RVS reads high again. *)
Definition responsive (b : Board) : Prop :=
  forall n, exists k, rvs_level b (n + k) = true.

(** The burst loop from index [i], transfer [nt], with [ks] the number of
    low reads before each exchange. *)
Fixpoint burst_trace (b : Board) (nt : nat) (i : Z) (ks : list nat)
    : list Event :=
  match ks with
  | [] => []
  | k :: ks' =>
      wait_trace k ++ exchange_trace nop_frame (rx4 b nt) ++
      [EvStore i (rx_word b nt)] ++ burst_trace b (nt + 4) (i + 1) ks'
  end.

Fixpoint burst_samples (b : Board) (nt : nat) (i : nat) (n : nat)
    (s : list Z) : list Z :=
  match n with
  | O => s
  | S n' => burst_samples b (nt + 4) (S i) n' (<[i := rx_word b nt]> s)
  end.

(** The waits of a burst: each [k] of [ks] is the number of low reads
    before the next high one, starting at read [n]. *)
Fixpoint waits (b : Board) (n : nat) (ks : list nat) : Prop :=
  match ks with
  | [] => True
  | k :: ks' => first_ready b n k /\ waits b (n + S k) ks'
  end.

(** The decode loop from index [i] for [n] entries of the buffer [s]. *)
Fixpoint decode_trace (build : adsx_bits) (i n : nat) (s : list Z)
    : list Event :=
  match n with
  | O => []
  | S n' =>
      match s !! i with
      | Some raw =>
          [EvLoad (Z.of_nat i);
           EvStore (Z.of_nat i) (decode_sample build raw)] ++
          decode_trace build (S i) n' s
      | None => []
      end
  end.

Fixpoint decoded (build : adsx_bits) (i n : nat) (s : list Z) : list Z :=
  match n with
  | O => s
  | S n' =>
      match s !! i with
      | Some raw => decoded build (S i) n' (<[i := decode_sample build raw]> s)
      | None => s
      end
  end.

(** What is left of [adsxConfigureBasic] once the range register is
    written and the first conversion started. *)
Definition configure_flush (fuel : nat) : M unit :=
  spin_until rvsReady fuel ;;
  SPI_beginTransaction ;;
  _ ← frameNOP;
  SPI_endTransaction.

Definition configure_head_trace (b : Board) (n : nat) (vr : Z) : list Event :=
  [EvBeginTransaction] ++
  exchange_trace [0xD0; ADSX_REG_RANGE_SEL; 0x00; Z.land vr 0xF] (rx4 b n) ++
  exchange_trace nop_frame (rx4 b (n + 4)) ++
  [EvEndTransaction].

Definition outcome_map {A : Type} (f : World -> World) (o : Outcome A)
    : Outcome A :=
  match o with
  | Done a w => Done a (f w)
  | OutOfBounds i => OutOfBounds i
  | Spinning w => Spinning (f w)
  end.

(** [c] neither reads nor writes [vRange]. *)
Definition vRange_blind {A : Type} (c : M A) : Prop :=
  forall v w, c (set_vRange v w) = outcome_map (set_vRange v) (c w).

Definition outcome_trace {A : Type} (o : Outcome A) : option (list Event) :=
  match o with
  | Done _ w | Spinning w => Some (trace w)
  | OutOfBounds _ => None
  end.

(** [c] from [w] never leaves the buffer, ends in [Q] and, if it is still
    spinning when the fuel runs out, has reached [D]. *)
Definition wp {A : Type} (c : M A) (Q : A -> World -> Prop)
    (D : World -> Prop) (w : World) : Prop :=
  match c w with
  | Done a w' => Q a w'
  | Spinning w' => D w'
  | OutOfBounds _ => False
  end.

(** Since [w0] the buffer kept its size and was only indexed below [N]. *)
Definition indexed_below (N : Z) (w0 w : World) : Prop :=
  length (samples w) = length (samples w0) /\
  exists delta, trace w = trace w0 ++ delta /\
    Forall (fun i => 0 <= i < N) (accesses delta).

(** The whole of [adsxConfigureBasic] and of [capture_fast]. *)
Definition configure_trace (b : Board) (n : nat) (vr : Z) (k : nat)
    : list Event :=
  [EvBeginTransaction] ++
  exchange_trace [0xD0; ADSX_REG_RANGE_SEL; 0x00; Z.land vr 0xF] (rx4 b n) ++
  exchange_trace nop_frame (rx4 b (n + 4)) ++
  [EvEndTransaction] ++
  wait_trace k ++
  [EvBeginTransaction] ++
  exchange_trace nop_frame (rx4 b (n + 8)) ++
  [EvEndTransaction].

Definition capture_trace (b : Board) (n m : nat) (k0 : nat) (ks : list nat)
    : list Event :=
  ([EvBeginTransaction] ++ exchange_trace nop_frame (rx4 b n) ++
   [EvEndTransaction] ++ wait_trace k0) ++
  [EvMicros (u32 (clock_us b m))] ++
  ([EvBeginTransaction] ++ burst_trace b (n + 4) 0 ks ++
   [EvEndTransaction]) ++
  [EvMicros (u32 (clock_us b (m + 1)))].

(** [c] keeps every access to [samples] below [N], from any state reached
    that way since [w0], whether it returns or is still spinning. *)
Definition safe (N : Z) (w0 : World) {A : Type} (c : M A) : Prop :=
  forall w, indexed_below N w0 w ->
    wp c (fun _ w' => indexed_below N w0 w') (indexed_below N w0) w.

(** Two boards to run the sketch on: one whose RVS always reads high, and
    one whose RVS reads high on every third read. *)
Definition ready_board : Board :=
  {| spi_miso := fun k => Z.of_nat k;
     rvs_level := fun _ => true;
     clock_us := fun k => 100 * Z.of_nat k |}.

Definition slow_board : Board :=
  {| spi_miso := fun k => 250 + Z.of_nat k;
     rvs_level := fun k => Nat.eqb (k mod 3) 2;
     clock_us := fun k => 1000 + 4294967000 * Z.of_nat k |}.

(** ** The conversion formula in the words of the specification *)

Module Formula.

Section Formula.

Variable build : adsx_bits.
Variable vRange : Z.

Definition multiplier : spec_float := fst (adsxRangeMultiplier vRange).
Definition bipolar : bool := snd (adsxRangeMultiplier vRange).

Definition PFS : spec_float := F32.mul multiplier (F32.lit 4096 3).
Definition NFS : spec_float := if bipolar then F32.opp PFS else F32.of_Z 0.
Definition FSR : spec_float := F32.sub PFS NFS.
Definition LSB : spec_float := F32.div FSR (F32.of_Z (2 ^ ADSX_BITS build)).

End Formula.

End Formula.

(** The documented ranges: exact multiplier of the reference, polarity. *)
Definition range_value (r : spec_float * bool) : Q * bool :=
  (Qred (F32.to_Q (fst r)), snd r).

(** The bytes [c] put on MOSI when run from [w]. *)
Definition sent_by {A : Type} (c : M A) (w : World) : list Z :=
  match c w with
  | Done _ w' | Spinning w' => sent (drop (length (trace w)) (trace w'))
  | OutOfBounds _ => []
  end.

(** ** What a call may do *)

(** The states a call can be seen in, when it returned or while it is
    still spinning, are related to the state it started from by [R]. *)
Definition outcome_rel {A : Type} (R : World -> World -> Prop) (w : World)
    (o : Outcome A) : Prop :=
  match o with
  | Done _ w' | Spinning w' => R w w'
  | OutOfBounds _ => True
  end.

Definition preserves (R : World -> World -> Prop) {A : Type} (c : M A) : Prop :=
  forall w, outcome_rel R w (c w).

(** [vRange] is as it was and every new event passes [P]. *)
Definition only_events (P : Event -> bool) (w w' : World) : Prop :=
  vRange w' = vRange w /\
  exists delta, trace w' = trace w ++ delta /\ forallb P delta = true.

Definition keeps_samples (w w' : World) : Prop := samples w' = samples w.

(** The new transfers come four to a chip-select assertion. *)
Definition framed (w w' : World) : Prop :=
  exists delta, trace w' = trace w ++ delta /\
    length (sent delta) = (4 * exchanges delta)%nat.



(** The events of the configurator: the bus, chip select and RVS, but
    neither the buffer nor the clock. *)
Definition configure_event (e : Event) : bool :=
  match e with
  | EvBeginTransaction | EvEndTransaction | EvTransfer _ _ => true
  | EvDigitalWrite pin _ => pin =? PIN_CS
  | EvDigitalRead pin _ => pin =? PIN_RVS
  | EvMicros _ | EvLoad _ | EvStore _ _ => false
  end.

(** A device that never raises RVS. *)
Definition dead_board : Board :=
  {| spi_miso := fun _ => 0xFF;
     rvs_level := fun _ => false;
     clock_us := fun k => Z.of_nat k |}.

(** ** The sketch: console, [setup] and [loop] *)

(** The text the sketch prints. *)
Module Text.
Import Strings.String Strings.Ascii.
Definition banner_device : string := "ADS86".
Definition banner_spi : string := " burst capture, SPI=".
Definition banner_pacing : string := " MHz, using RVS pacing.".
Definition captured : string := "Captured ".
Definition samples_in : string := " samples in ".
Definition us_approx : string := " us  (~".
Definition sa_per_s : string := " Sa/s)".
Definition first_4 : string := "First 4: ".
Definition last_4 : string := " ... Last 4: ".
Definition space : ascii := " ".
End Text.

Definition ADSX_SPI_HZ : Z := 40000000.
Definition PIN_RST : Z := -1.

Inductive PinMode := INPUT | OUTPUT.

(** The calls of the sketch that leave the SPI bus, the RVS pin, the clock
    and the buffer alone: serial port, delays, pin modes, [SPI.begin]. *)
Inductive Action :=
| ASerialBegin (baud : Z)
| ADelay (ms : Z)
| APinMode (pin : Z) (mode : PinMode)
| ASPIBegin
| APrintStr (s : String.string)
| APrintlnStr (s : String.string)
| APrintInt (v : Z)
| APrintFloat (v : spec_float) (digits : Z)
| APrintChar (c : Ascii.ascii)
| APrintln.

(** The console keeps these calls in order, each with the number of
    hardware events that came before it. *)
Definition Console : Type := list (nat * Action).

Definition Sk (A : Type) : Type := Console -> M (A * Console).

Definition sk_ret {A : Type} (a : A) : Sk A := fun log => ret (a, log).

Definition sk_bind {A B : Type} (c : Sk A) (k : A -> Sk B) : Sk B :=
  fun log => bind (c log) (fun r => k (fst r) (snd r)).

Definition lift {A : Type} (c : M A) : Sk A :=
  fun log => bind c (fun a => ret (a, log)).

Definition act (a : Action) : Sk unit :=
  fun log w => Done (tt, log ++ [(length (trace w), a)]) w.

Declare Scope sk_scope.
Delimit Scope sk_scope with sk.
Notation "x ← y ; z" := (sk_bind y (fun x => z))
  (at level 20, y at level 100, z at level 200, only parsing) : sk_scope.
Notation "x ;; z" := (sk_bind x (fun _ => z))
  (at level 100, z at level 200, only parsing, right associativity) : sk_scope.
Local Open Scope sk_scope.

(** [for (int i = lo; i < hi; ++i) body], whose body changes neither [i]
    nor [hi]: [n = hi - lo] iterations. *)
Fixpoint sk_for_n (n : nat) (i : Z) (body : Z -> Sk unit) : Sk unit :=
  match n with
  | O => sk_ret tt
  | S n' => body i ;; sk_for_n n' (i + 1) body
  end.

Definition sk_for (lo hi : Z) (body : Z -> Sk unit) : Sk unit :=
  sk_for_n (Z.to_nat (hi - lo)) lo body.

(** [x / y] on doubles, and [(double)z]. *)
Definition F64_of_Z (z : Z) : spec_float := binary_normalize 53 1024 z 0 false.
Definition F64_div : spec_float -> spec_float -> spec_float := SFdiv 53 1024.

Definition setup (build : adsx_bits) (fuel : nat) : Sk unit :=
  act (ASerialBegin 115200) ;;
  act (ADelay 2000) ;;
  act (APinMode PIN_CS OUTPUT) ;;
  lift (digitalWrite PIN_CS HIGH) ;;
  act (APinMode PIN_RVS INPUT) ;;
  (if PIN_RST >=? 0 then
     act (APinMode PIN_RST OUTPUT) ;;
     lift (digitalWrite PIN_RST HIGH) ;;
     lift (digitalWrite PIN_RST LOW) ;;
     act (ADelay 1) ;;
     lift (digitalWrite PIN_RST HIGH)
   else sk_ret tt) ;;
  act (ADelay 20) ;;
  act ASPIBegin ;;
  lift (adsxConfigureBasic fuel) ;;
  act (APrintStr Text.banner_device) ;;
  act (APrintInt (ADSX_BITS build)) ;;
  act (APrintStr Text.banner_spi) ;;
  act (APrintFloat (F64_div (F64_of_Z ADSX_SPI_HZ) (F32.lit64 1000000 0)) 1) ;;
  act (APrintlnStr Text.banner_pacing).

Definition print_sample (i : Z) : Sk unit :=
  v ← lift (samples_load i);
  act (APrintInt v) ;;
  act (APrintChar Text.space).

Definition loop (build : adsx_bits) (fuel : nat) : Sk unit :=
  dt_us ← lift (capture_fast fuel SAMPLE_COUNT);
  let sps :=
    F32.div (F32.of_Z SAMPLE_COUNT)
            (F32.mul (F32.of_Z dt_us) (F32.lit 1 6)) in
  lift (decode_samples_in_place build SAMPLE_COUNT) ;;
  act (APrintStr Text.captured) ;;
  act (APrintInt SAMPLE_COUNT) ;;
  act (APrintStr Text.samples_in) ;;
  act (APrintInt dt_us) ;;
  act (APrintStr Text.us_approx) ;;
  act (APrintFloat sps 1) ;;
  act (APrintlnStr Text.sa_per_s) ;;
  act (APrintStr Text.first_4) ;;
  sk_for 0 (Z.min 4 SAMPLE_COUNT) print_sample ;;
  act (APrintStr Text.last_4) ;;
  sk_for (Z.max 0 (SAMPLE_COUNT - 4)) SAMPLE_COUNT print_sample ;;
  act APrintln ;;
  act (ADelay 2000).

Local Close Scope sk_scope.

(** What [setup] and [loop] leave on the console; [t] is the number of
    hardware events before the call, [tc] the number once the device is
    configured. *)
Definition setup_trace (b : Board) (n : nat) (vr : Z) (k : nat) : list Event :=
  [EvDigitalWrite PIN_CS HIGH] ++ configure_trace b n vr k.

Definition setup_banner (build : adsx_bits) : list Action :=
  [APrintStr Text.banner_device; APrintInt (ADSX_BITS build);
   APrintStr Text.banner_spi;
   APrintFloat (F64_div (F64_of_Z ADSX_SPI_HZ) (F32.lit64 1000000 0)) 1;
   APrintlnStr Text.banner_pacing].

Definition setup_console (build : adsx_bits) (t tc : nat) : Console :=
  map (pair t) [ASerialBegin 115200; ADelay 2000; APinMode PIN_CS OUTPUT] ++
  map (pair (t + 1)%nat) [APinMode PIN_RVS INPUT; ADelay 20; ASPIBegin] ++
  map (pair tc) (setup_banner build).

(** The samples [print_sample] prints from index [i] on: each one is read
    from the buffer [s], then printed, then a space. *)
Fixpoint samples_console (s : list Z) (t : nat) (n : nat) (i : Z) : Console :=
  match n with
  | O => []
  | S n' =>
      [((t + 1)%nat, APrintInt (s !!! Z.to_nat i));
       ((t + 1)%nat, APrintChar Text.space)] ++
      samples_console s (t + 1) n' (i + 1)
  end.

Definition loop_report (dt_us : Z) : list Action :=
  [APrintStr Text.captured; APrintInt SAMPLE_COUNT;
   APrintStr Text.samples_in; APrintInt dt_us; APrintStr Text.us_approx;
   APrintFloat (F32.div (F32.of_Z SAMPLE_COUNT)
                        (F32.mul (F32.of_Z dt_us) (F32.lit 1 6))) 1;
   APrintlnStr Text.sa_per_s; APrintStr Text.first_4].

Definition loop_console (dt_us : Z) (s : list Z) (t : nat) : Console :=
  map (pair t) (loop_report dt_us) ++
  samples_console s t 4 0 ++
  [((t + 4)%nat, APrintStr Text.last_4)] ++
  samples_console s (t + 4) 4 252 ++
  map (pair (t + 8)%nat) [APrintln; ADelay 2000].

Definition loop_loads : list Event :=
  map EvLoad [0; 1; 2; 3] ++ map EvLoad [252; 253; 254; 255].

Definition print_of (c : Z) : list Action :=
  [APrintInt c; APrintChar Text.space].

(** * Properties *)

(** ** Machine integers and bits *)

Lemma land_0xF_range (c : Z) : 0 <= Z.land c 0xF < 16.
Proof.
  change 0xF with (Z.ones 4). rewrite Z.land_ones by lia.
  apply Z.mod_pos_bound. lia.
Qed.

Lemma land_0xF_cases (c : Z) :
  In (Z.land c 0xF) [0; 1; 2; 3; 4; 5; 6; 7; 8; 9; 10; 11; 12; 13; 14; 15].
Proof.
  pose proof (land_0xF_range c) as H. simpl.
  assert (Z.land c 15 = 0 \/ Z.land c 15 = 1 \/ Z.land c 15 = 2 \/
          Z.land c 15 = 3 \/ Z.land c 15 = 4 \/ Z.land c 15 = 5 \/
          Z.land c 15 = 6 \/ Z.land c 15 = 7 \/ Z.land c 15 = 8 \/
          Z.land c 15 = 9 \/ Z.land c 15 = 10 \/ Z.land c 15 = 11 \/
          Z.land c 15 = 12 \/ Z.land c 15 = 13 \/ Z.land c 15 = 14 \/
          Z.land c 15 = 15) by lia.
  intuition auto.
Qed.

Lemma land_0xF_idem (c : Z) : Z.land (Z.land c 0xF) 0xF = Z.land c 0xF.
Proof. rewrite <- Z.land_assoc. reflexivity. Qed.

Lemma ADSX_CODE_MASK_ones build :
  ADSX_CODE_MASK build = Z.ones (ADSX_BITS build).
Proof. destruct build; reflexivity. Qed.

Lemma ADSX_BITS_pos build : 0 < ADSX_BITS build.
Proof. destruct build; reflexivity. Qed.

Lemma ADSX_field_width build : ADSX_CODE_SHIFT build + ADSX_BITS build = 32.
Proof. destruct build; reflexivity. Qed.

Lemma decode_sample_mod build raw :
  decode_sample build raw =
  (raw / 2 ^ ADSX_CODE_SHIFT build) mod 2 ^ ADSX_BITS build.
Proof.
  unfold decode_sample. rewrite ADSX_CODE_MASK_ones.
  rewrite Z.land_ones by (destruct build; discriminate).
  rewrite Z.shiftr_div_pow2 by (destruct build; discriminate).
  reflexivity.
Qed.

Lemma decode_sample_range build raw :
  0 <= decode_sample build raw <= ADSX_CODE_MASK build.
Proof.
  rewrite decode_sample_mod, ADSX_CODE_MASK_ones, Z.ones_equiv.
  pose proof (Z.mod_pos_bound (raw / 2 ^ ADSX_CODE_SHIFT build)
                (2 ^ ADSX_BITS build)) as H.
  destruct build; simpl in *; lia.
Qed.

Lemma decode_sample_testbit build raw n :
  Z.testbit (decode_sample build raw) n =
  (0 <=? n) && (n <? ADSX_BITS build) &&
  Z.testbit raw (n + ADSX_CODE_SHIFT build).
Proof.
  unfold decode_sample. rewrite ADSX_CODE_MASK_ones.
  destruct (Z.leb_spec 0 n) as [Hn|Hn]; simpl.
  - rewrite Z.land_spec, Z.shiftr_spec by lia.
    destruct (Z.ltb_spec n (ADSX_BITS build)) as [Hw|Hw]; simpl.
    + rewrite Z.ones_spec_low by lia. apply andb_true_r.
    + rewrite Z.ones_spec_high by (pose proof (ADSX_BITS_pos build); lia).
      apply andb_false_r.
  - apply Z.testbit_neg_r. lia.
Qed.

Lemma decode_sample_field build raw1 raw2 :
  (forall n, ADSX_CODE_SHIFT build <= n < ADSX_CODE_SHIFT build + ADSX_BITS build ->
             Z.testbit raw1 n = Z.testbit raw2 n) ->
  decode_sample build raw1 = decode_sample build raw2.
Proof.
  intros H. apply Z.bits_inj'. intros n Hn.
  rewrite !decode_sample_testbit.
  destruct (Z.ltb_spec n (ADSX_BITS build)) as [Hw|Hw].
  - rewrite H; [reflexivity|].
    destruct build; simpl in *; lia.
  - rewrite andb_false_r. reflexivity.
Qed.

(** C3. Round trip on the 18-bit build: the raw frame [code << 14] decodes
    (shift right by 14, mask with 0x3FFFF) to [code], for every code in
    [0, 0x3FFFF]. *)
Theorem decode_sample_roundtrip_18 (code : Z) :
  0 <= code <= 0x3FFFF ->
  ADSX_CODE_SHIFT Bits18 = 14 /\ ADSX_CODE_MASK Bits18 = 0x3FFFF /\
  decode_sample Bits18 (u32 (Z.shiftl code 14)) = code.
Proof.
  intros Hc. split; [reflexivity|]. split; [reflexivity|].
  rewrite decode_sample_mod. unfold u32.
  rewrite Z.shiftl_mul_pow2 by lia.
  change (ADSX_CODE_SHIFT Bits18) with 14. change (ADSX_BITS Bits18) with 18.
  change (2 ^ 14) with 16384. change (2 ^ 18) with 262144.
  change (2 ^ 32) with 4294967296.
  rewrite (Z.mod_small (code * 16384)) by lia.
  rewrite Z.div_mul by lia.
  apply Z.mod_small. lia.
Qed.

Lemma decode_sample_roundtrip_18_witness :
  0 <= 0x2ABCD <= 0x3FFFF /\
  decode_sample Bits18 (u32 (Z.shiftl 0x2ABCD 14)) = 0x2ABCD.
Proof.
  assert (H : 0 <= 0x2ABCD <= 0x3FFFF) by lia.
  split; [exact H|].
  exact (proj2 (proj2 (decode_sample_roundtrip_18 0x2ABCD H))).
Defined.

(** ** Range table *)

Lemma adsxRangeMultiplier_low_bits (c : Z) :
  adsxRangeMultiplier (Z.land c 0xF) = adsxRangeMultiplier c.
Proof. unfold adsxRangeMultiplier. rewrite land_0xF_idem. reflexivity. Qed.

(** C4. The range table on the nine defined selectors (0x0-0x4 bipolar
    with 3.0, 2.5, 1.5, 1.25, 0.625; 0x8-0xB unipolar with 3.0, 2.5, 1.5,
    1.25), and its fallback (1.25, unipolar) on the seven other 4-bit
    values; the multipliers are exact. *)
Theorem adsxRangeMultiplier_table :
  map (fun c => range_value (adsxRangeMultiplier c))
      [0x0; 0x1; 0x2; 0x3; 0x4; 0x8; 0x9; 0xA; 0xB] =
    [(3 # 1, true); (5 # 2, true); (3 # 2, true); (5 # 4, true);
     (5 # 8, true);
     (3 # 1, false); (5 # 2, false); (3 # 2, false); (5 # 4, false)]%Q /\
  map (fun c => range_value (adsxRangeMultiplier c))
      [0x5; 0x6; 0x7; 0xC; 0xD; 0xE; 0xF] =
    repeat ((5 # 4)%Q, false) 7 /\
  forall c, F32.is_finite (fst (adsxRangeMultiplier c)) = true.
Proof.
  split; [vm_compute; reflexivity|]. split; [vm_compute; reflexivity|].
  intros c. rewrite <- adsxRangeMultiplier_low_bits.
  pose proof (land_0xF_cases c) as H. simpl in H.
  repeat (destruct H as [<-|H]; [vm_compute; reflexivity|]).
  destruct H.
Qed.

(** ** Code converter *)

Lemma VOLT_REF_value : VOLT_REF = F32.lit 4096 3.
Proof. vm_compute. reflexivity. Qed.

Lemma two_pow_ADSX_BITS build :
  u32 (Z.shiftl 1 (ADSX_BITS build)) = 2 ^ ADSX_BITS build.
Proof. destruct build; reflexivity. Qed.

Lemma adsxCodeToVolts_formula build vRange code :
  code <= ADSX_CODE_MASK build ->
  adsxCodeToVolts build vRange code =
  F32.add (Formula.NFS vRange)
          (F32.mul (F32.of_Z code) (Formula.LSB build vRange)).
Proof.
  intros Hc. unfold adsxCodeToVolts.
  replace (code >? ADSX_CODE_MASK build) with false
    by (symmetry; rewrite Z.gtb_ltb; apply Z.ltb_ge; exact Hc).
  unfold Formula.LSB, Formula.FSR, Formula.NFS, Formula.PFS,
    Formula.multiplier, Formula.bipolar.
  destruct (adsxRangeMultiplier vRange) as [mult bip]. simpl fst. simpl snd.
  rewrite VOLT_REF_value, two_pow_ADSX_BITS.
  reflexivity.
Qed.

Lemma adsxCodeToVolts_low_bits build vRange code :
  adsxCodeToVolts build (Z.land vRange 0xF) code =
  adsxCodeToVolts build vRange code.
Proof.
  unfold adsxCodeToVolts. rewrite adsxRangeMultiplier_low_bits. reflexivity.
Qed.

Lemma PFS_low_bits vRange :
  Formula.PFS (Z.land vRange 0xF) = Formula.PFS vRange.
Proof.
  unfold Formula.PFS, Formula.multiplier.
  rewrite adsxRangeMultiplier_low_bits. reflexivity.
Qed.

Lemma NFS_low_bits vRange :
  Formula.NFS (Z.land vRange 0xF) = Formula.NFS vRange.
Proof.
  unfold Formula.NFS, Formula.bipolar. rewrite PFS_low_bits.
  rewrite adsxRangeMultiplier_low_bits. reflexivity.
Qed.

Lemma adsxCodeToVolts_zero build vRange :
  adsxCodeToVolts build vRange 0 = Formula.NFS vRange.
Proof.
  rewrite <- adsxCodeToVolts_low_bits, <- NFS_low_bits.
  pose proof (land_0xF_cases vRange) as H. simpl in H.
  destruct build;
    repeat (destruct H as [<-|H]; [vm_compute; reflexivity|]);
    destruct H.
Qed.

Lemma adsxCodeToVolts_below_PFS build vRange :
  F32.ltb (adsxCodeToVolts build vRange (ADSX_CODE_MASK build))
          (Formula.PFS vRange) = true.
Proof.
  rewrite <- adsxCodeToVolts_low_bits, <- PFS_low_bits.
  pose proof (land_0xF_cases vRange) as H. simpl in H.
  destruct build;
    repeat (destruct H as [<-|H]; [vm_compute; reflexivity|]);
    destruct H.
Qed.

(** C1. For every code in [0, ADSX_CODE_MASK] and every range selector,
    [adsxCodeToVolts code] is [NFS + code * LSB] in binary32 arithmetic,
    with [PFS = multiplier * 4.096], [NFS = -PFS] on a bipolar range and
    [0] otherwise, [FSR = PFS - NFS] and [LSB = FSR / 2^ADSX_BITS]; code 0
    gives [NFS], and the top code gives [NFS + mask * LSB], strictly below
    [PFS]. *)
Theorem adsxCodeToVolts_spec build vRange code :
  0 <= code <= ADSX_CODE_MASK build ->
  adsxCodeToVolts build vRange code =
    F32.add (Formula.NFS vRange)
            (F32.mul (F32.of_Z code) (Formula.LSB build vRange)) /\
  adsxCodeToVolts build vRange 0 = Formula.NFS vRange /\
  adsxCodeToVolts build vRange (ADSX_CODE_MASK build) =
    F32.add (Formula.NFS vRange)
            (F32.mul (F32.of_Z (ADSX_CODE_MASK build))
                     (Formula.LSB build vRange)) /\
  F32.ltb (adsxCodeToVolts build vRange (ADSX_CODE_MASK build))
          (Formula.PFS vRange) = true.
Proof.
  intros [_ Hc]. split; [|split; [|split]].
  - apply adsxCodeToVolts_formula. exact Hc.
  - apply adsxCodeToVolts_zero.
  - apply adsxCodeToVolts_formula. lia.
  - apply adsxCodeToVolts_below_PFS.
Qed.

Lemma adsxCodeToVolts_spec_witness :
  0 <= 131072 <= ADSX_CODE_MASK Bits18 /\
  adsxCodeToVolts Bits18 ADSX_RANGE_BIPOLAR_2P5X 131072 =
    F32.add (Formula.NFS ADSX_RANGE_BIPOLAR_2P5X)
            (F32.mul (F32.of_Z 131072)
                     (Formula.LSB Bits18 ADSX_RANGE_BIPOLAR_2P5X)).
Proof.
  assert (H : 0 <= 131072 <= ADSX_CODE_MASK Bits18) by (vm_compute; split; discriminate).
  split; [exact H|].
  exact (proj1 (adsxCodeToVolts_spec Bits18 ADSX_RANGE_BIPOLAR_2P5X 131072 H)).
Defined.

(** The scenario of the 18-bit device on the bipolar 2.5x range: full
    scale is 10.24 V up to rounding, mid-scale converts to 0 V, code 0 to
    the negative full scale and the top code to one step below 10.24 V. *)
Example bipolar_2p5x_scenario :
  let volts := adsxCodeToVolts Bits18 ADSX_RANGE_BIPOLAR_2P5X in
  let PFS := Formula.PFS ADSX_RANGE_BIPOLAR_2P5X in
  (Qabs (F32.to_Q PFS - 10.24) < 0.000001)%Q /\
  volts 131072 = S754_zero false /\
  volts 0 = F32.opp PFS /\
  (Qabs (F32.to_Q (volts 262143%Z) - 10.2399) < 0.0001)%Q.
Proof. repeat split; vm_compute; reflexivity. Qed.

(** C6. Saturation: a code above [ADSX_CODE_MASK] converts to the same
    voltage as [ADSX_CODE_MASK] itself; nothing is rejected. *)
Theorem adsxCodeToVolts_saturates build vRange code :
  code > ADSX_CODE_MASK build ->
  adsxCodeToVolts build vRange code =
  adsxCodeToVolts build vRange (ADSX_CODE_MASK build).
Proof.
  intros Hc. unfold adsxCodeToVolts.
  replace (code >? ADSX_CODE_MASK build) with true
    by (symmetry; rewrite Z.gtb_ltb; apply Z.ltb_lt; lia).
  replace (ADSX_CODE_MASK build >? ADSX_CODE_MASK build) with false
    by (symmetry; rewrite Z.gtb_ltb; apply Z.ltb_irrefl).
  reflexivity.
Qed.

Lemma adsxCodeToVolts_saturates_witness :
  ADSX_CODE_MASK Bits18 + 1000 > ADSX_CODE_MASK Bits18 /\
  adsxCodeToVolts Bits18 ADSX_RANGE_BIPOLAR_2P5X (ADSX_CODE_MASK Bits18 + 1000) =
  adsxCodeToVolts Bits18 ADSX_RANGE_BIPOLAR_2P5X (ADSX_CODE_MASK Bits18).
Proof.
  assert (H : ADSX_CODE_MASK Bits18 + 1000 > ADSX_CODE_MASK Bits18)
    by (vm_compute; reflexivity).
  split; [exact H|].
  exact (adsxCodeToVolts_saturates Bits18 ADSX_RANGE_BIPOLAR_2P5X _ H).
Defined.

(** ** Register protocol codec *)

Lemma World_eq (w1 w2 : World) :
  board w1 = board w2 -> n_transfer w1 = n_transfer w2 ->
  n_read w1 = n_read w2 -> n_micros w1 = n_micros w2 ->
  trace w1 = trace w2 -> vRange w1 = vRange w2 -> samples w1 = samples w2 ->
  w1 = w2.
Proof. destruct w1, w2; simpl; intros; subst; reflexivity. Qed.

Lemma advance_advance dt1 dr1 dm1 d1 s1 dt2 dr2 dm2 d2 s2 w :
  advance dt2 dr2 dm2 d2 s2 (advance dt1 dr1 dm1 d1 s1 w) =
  advance (dt1 + dt2) (dr1 + dr2) (dm1 + dm2) (d1 ++ d2) s2 w.
Proof.
  apply World_eq; simpl; try reflexivity; try lia.
  symmetry. apply app_assoc.
Qed.

Lemma bind_Done {A B : Type} (c : M A) (k : A -> M B) w a w' :
  c w = Done a w' -> bind c k w = k a w'.
Proof. intros H. unfold bind. rewrite H. reflexivity. Qed.

Lemma board_advance dt dr dm d s w : board (advance dt dr dm d s w) = board w.
Proof. reflexivity. Qed.
Lemma n_transfer_advance dt dr dm d s w :
  n_transfer (advance dt dr dm d s w) = (n_transfer w + dt)%nat.
Proof. reflexivity. Qed.
Lemma n_read_advance dt dr dm d s w :
  n_read (advance dt dr dm d s w) = (n_read w + dr)%nat.
Proof. reflexivity. Qed.
Lemma n_micros_advance dt dr dm d s w :
  n_micros (advance dt dr dm d s w) = (n_micros w + dm)%nat.
Proof. reflexivity. Qed.
Lemma trace_advance dt dr dm d s w :
  trace (advance dt dr dm d s w) = trace w ++ d.
Proof. reflexivity. Qed.
Lemma vRange_advance dt dr dm d s w :
  vRange (advance dt dr dm d s w) = vRange w.
Proof. reflexivity. Qed.
Lemma samples_advance dt dr dm d s w : samples (advance dt dr dm d s w) = s.
Proof. reflexivity. Qed.

Lemma advance_id w : advance 0 0 0 [] (samples w) w = w.
Proof.
  apply World_eq; simpl; try reflexivity; try lia. apply app_nil_r.
Qed.

Create Rewrite HintDb world.
#[global] Hint Rewrite board_advance n_transfer_advance n_read_advance
  n_micros_advance trace_advance vRange_advance samples_advance
  advance_advance Nat.add_0_r Nat.add_0_l : world.

Lemma digitalWrite_run pin level w :
  digitalWrite pin level w =
  Done tt (advance 0 0 0 [EvDigitalWrite pin level] (samples w) w).
Proof.
  unfold digitalWrite. f_equal.
  apply World_eq; simpl; try reflexivity; lia.
Qed.

Lemma digitalRead_run pin w :
  digitalRead pin w =
  Done (rvs_level (board w) (n_read w))
       (advance 0 1 0 [EvDigitalRead pin (rvs_level (board w) (n_read w))]
          (samples w) w).
Proof.
  unfold digitalRead. f_equal.
  apply World_eq; simpl; try reflexivity; lia.
Qed.

Lemma SPI_transfer_run b w :
  SPI_transfer b w =
  Done (rx (board w) (n_transfer w))
       (advance 1 0 0 [EvTransfer b (rx (board w) (n_transfer w))]
          (samples w) w).
Proof.
  unfold SPI_transfer. f_equal.
  apply World_eq; simpl; try reflexivity; lia.
Qed.

Lemma SPI_beginTransaction_run w :
  SPI_beginTransaction w =
  Done tt (advance 0 0 0 [EvBeginTransaction] (samples w) w).
Proof.
  unfold SPI_beginTransaction. f_equal.
  apply World_eq; simpl; try reflexivity; lia.
Qed.

Lemma SPI_endTransaction_run w :
  SPI_endTransaction w =
  Done tt (advance 0 0 0 [EvEndTransaction] (samples w) w).
Proof.
  unfold SPI_endTransaction. f_equal.
  apply World_eq; simpl; try reflexivity; lia.
Qed.

Lemma micros_run w :
  micros w =
  Done (u32 (clock_us (board w) (n_micros w)))
       (advance 0 0 1 [EvMicros (u32 (clock_us (board w) (n_micros w)))]
          (samples w) w).
Proof.
  unfold micros. f_equal.
  apply World_eq; simpl; try reflexivity; lia.
Qed.

Lemma samples_store_run i v w :
  0 <= i < Z.of_nat (length (samples w)) ->
  samples_store i v w =
  Done tt (advance 0 0 0 [EvStore i v] (<[Z.to_nat i := v]> (samples w)) w).
Proof.
  intros Hi. unfold samples_store, in_bounds.
  replace (0 <=? i) with true by (symmetry; apply Z.leb_le; lia).
  replace (i <? Z.of_nat (length (samples w))) with true
    by (symmetry; apply Z.ltb_lt; lia).
  simpl. f_equal.
  apply World_eq; simpl; try reflexivity; lia.
Qed.

Lemma samples_load_run i v w :
  0 <= i -> samples w !! Z.to_nat i = Some v ->
  samples_load i w = Done v (advance 0 0 0 [EvLoad i] (samples w) w).
Proof.
  intros Hi Hv. unfold samples_load, in_bounds.
  apply lookup_lt_Some in Hv as Hlt.
  replace (0 <=? i) with true by (symmetry; apply Z.leb_le; lia).
  replace (i <? Z.of_nat (length (samples w))) with true
    by (symmetry; apply Z.ltb_lt; lia).
  simpl. rewrite Hv. f_equal.
  apply World_eq; simpl; try reflexivity; lia.
Qed.

(** One step of a sequence: run the first command by its equation. *)
Ltac run_with lem :=
  erewrite bind_Done by (apply lem); autorewrite with world.

Lemma xfer32_run b0 b1 b2 b3 w :
  xfer32 b0 b1 b2 b3 w =
  Done (rx_word (board w) (n_transfer w))
       (advance 4 0 0
          (exchange_trace [b0; b1; b2; b3] (rx4 (board w) (n_transfer w)))
          (samples w) w).
Proof.
  unfold xfer32.
  run_with digitalWrite_run.
  do 4 run_with SPI_transfer_run.
  run_with digitalWrite_run.
  reflexivity.
Qed.

Lemma rx_range b n : 0 <= rx b n < 256.
Proof. unfold rx, u8. apply Z.mod_pos_bound. reflexivity. Qed.

Lemma lor_shiftl_add a b n :
  0 <= n -> 0 <= b < 2 ^ n -> Z.lor (Z.shiftl a n) b = a * 2 ^ n + b.
Proof.
  intros Hn Hb.
  assert (Hland : Z.land (Z.shiftl a n) b = 0).
  { apply Z.bits_inj'. intros m Hm.
    rewrite Z.land_spec, Z.bits_0.
    destruct (Z.lt_ge_cases m n) as [Hlt|Hge].
    - rewrite Z.shiftl_spec_low by lia. reflexivity.
    - rewrite <- (Z.mod_small b (2 ^ n)) by lia.
      rewrite Z.mod_pow2_bits_high by lia. apply andb_false_r. }
  rewrite <- Z.lxor_lor, <- Z.add_nocarry_lxor by exact Hland.
  rewrite Z.shiftl_mul_pow2 by lia. reflexivity.
Qed.

Lemma pack32_big_endian r0 r1 r2 r3 :
  0 <= r0 < 256 -> 0 <= r1 < 256 -> 0 <= r2 < 256 -> 0 <= r3 < 256 ->
  pack32 r0 r1 r2 r3 =
    Z.lor (Z.lor (Z.lor (Z.shiftl r0 24) (Z.shiftl r1 16)) (Z.shiftl r2 8)) r3 /\
  pack32 r0 r1 r2 r3 = r0 * 2 ^ 24 + r1 * 2 ^ 16 + r2 * 2 ^ 8 + r3.
Proof.
  intros H0 H1 H2 H3.
  assert (E : pack32 r0 r1 r2 r3 =
    Z.lor (Z.lor (Z.lor (Z.shiftl r0 24) (Z.shiftl r1 16)) (Z.shiftl r2 8)) r3).
  { unfold pack32, u32. rewrite !Z.shiftl_mul_pow2 by lia.
    change (2 ^ 32) with 4294967296. change (2 ^ 24) with 16777216.
    change (2 ^ 16) with 65536. change (2 ^ 8) with 256.
    rewrite !Z.mod_small by lia. reflexivity. }
  split; [exact E|]. rewrite E.
  replace (Z.shiftl r0 24) with (Z.shiftl (Z.shiftl r0 8) 16)
    by (rewrite Z.shiftl_shiftl by lia; reflexivity).
  rewrite <- Z.shiftl_lor, (lor_shiftl_add r0 r1 8) by lia.
  replace (Z.shiftl (r0 * 2 ^ 8 + r1) 16)
    with (Z.shiftl (Z.shiftl (r0 * 2 ^ 8 + r1) 8) 8)
    by (rewrite Z.shiftl_shiftl by lia; reflexivity).
  rewrite <- Z.shiftl_lor, !lor_shiftl_add by lia.
  change (2 ^ 24) with 16777216. change (2 ^ 16) with 65536.
  change (2 ^ 8) with 256. lia.
Qed.

Lemma u16_payload vr :
  let data := u16 (Z.lor ADSX_INTREF_ENABLE (Z.land vr 0x0F)) in
  u8 (Z.shiftr data 8) = 0 /\ u8 data = Z.land vr 0xF.
Proof.
  pose proof (land_0xF_cases vr) as H. simpl in H.
  repeat (destruct H as [<-|H]; [split; reflexivity|]).
  destruct H.
Qed.

Lemma writeRegHWord_run addr data w :
  writeRegHWord addr data w =
  Done tt (advance 4 0 0
             (exchange_trace [0xD0; addr; u8 (Z.shiftr data 8); u8 data]
                (rx4 (board w) (n_transfer w)))
             (samples w) w).
Proof.
  unfold writeRegHWord. run_with xfer32_run. reflexivity.
Qed.

Lemma frameNOP_run w :
  frameNOP w =
  Done (rx_word (board w) (n_transfer w))
       (advance 4 0 0 (exchange_trace nop_frame (rx4 (board w) (n_transfer w)))
          (samples w) w).
Proof. apply xfer32_run. Qed.

(** C8. [xfer32] frames the four bytes, in order, between one assertion
    and one release of chip select, and returns the four received bytes
    packed big-endian; [writeRegHWord] sends exactly
    [0xD0, addr, data >> 8, data & 0xFF] and returns nothing. *)
Theorem xfer32_writeRegHWord_frames b0 b1 b2 b3 addr data w :
  0 <= data < 2 ^ 16 ->
  let b := board w in
  let n := n_transfer w in
  (exists w',
     xfer32 b0 b1 b2 b3 w = Done (rx_word b n) w' /\
     trace w' = trace w ++
       [EvDigitalWrite PIN_CS LOW;
        EvTransfer b0 (rx b n); EvTransfer b1 (rx b (n + 1));
        EvTransfer b2 (rx b (n + 2)); EvTransfer b3 (rx b (n + 3));
        EvDigitalWrite PIN_CS HIGH] /\
     rx_word b n =
       Z.lor (Z.lor (Z.lor (Z.shiftl (rx b n) 24) (Z.shiftl (rx b (n + 1)) 16))
                    (Z.shiftl (rx b (n + 2)) 8)) (rx b (n + 3)) /\
     rx_word b n =
       rx b n * 2 ^ 24 + rx b (n + 1) * 2 ^ 16 + rx b (n + 2) * 2 ^ 8 +
       rx b (n + 3)) /\
  (exists w',
     writeRegHWord addr data w = Done tt w' /\
     sent (drop (length (trace w)) (trace w')) =
       [0xD0; addr; Z.shiftr data 8; Z.land data 0xFF] /\
     exchanges (drop (length (trace w)) (trace w')) = 1%nat).
Proof.
  intros Hd b n. split.
  - eexists. split; [apply xfer32_run|].
    split; [reflexivity|].
    unfold rx_word. apply pack32_big_endian; apply rx_range.
  - eexists. split; [apply writeRegHWord_run|].
    rewrite trace_advance, drop_app_length.
    split; [|reflexivity].
    unfold exchange_trace, sent, rx4.
    cbn [zip_with app flat_map sent_of]. f_equal. f_equal.
    change (2 ^ 16) with 65536 in Hd.
    f_equal; [|f_equal].
    + unfold u8. apply Z.mod_small.
      rewrite Z.shiftr_div_pow2 by lia. change (2 ^ 8) with 256.
      split; [apply Z.div_pos; lia|apply Z.div_lt_upper_bound; lia].
    + unfold u8. change 0xFF with (Z.ones 8).
      rewrite Z.land_ones by lia. reflexivity.
Qed.

Lemma xfer32_writeRegHWord_frames_witness :
  0 <= 0x0009 < 2 ^ 16 /\
  exists w',
    writeRegHWord 0x14 0x0009 (boot {| spi_miso := fun _ => 0;
                                       rvs_level := fun _ => true;
                                       clock_us := fun _ => 0 |} 0x9)
      = Done tt w' /\
    sent (drop 0 (trace w')) = [0xD0; 0x14; 0; 9] /\
    exchanges (drop 0 (trace w')) = 1%nat.
Proof.
  assert (H : 0 <= 0x0009 < 2 ^ 16) by (split; [discriminate|reflexivity]).
  split; [exact H|].
  exact (proj2 (xfer32_writeRegHWord_frames 0 0 0 0 0x14 0x0009 _ H)).
Defined.

(** ** Waiting for RVS *)

Lemma rvsReady_run w :
  rvsReady w =
  Done (rvs_level (board w) (n_read w))
       (advance 0 1 0 [EvDigitalRead PIN_RVS (rvs_level (board w) (n_read w))]
          (samples w) w).
Proof.
  unfold rvsReady. run_with digitalRead_run.
  unfold ret, HIGH. destruct (rvs_level (board w) (n_read w)); reflexivity.
Qed.

Lemma first_ready_exists b n k :
  rvs_level b (n + k) = true ->
  exists k', (k' <= k)%nat /\ first_ready b n k'.
Proof.
  revert n. induction k as [|k IH]; intros n Hk.
  - exists 0%nat. split; [lia|]. split; [intros j Hj; lia|exact Hk].
  - destruct (rvs_level b n) eqn:Hn.
    + exists 0%nat. split; [lia|]. split; [intros j Hj; lia|].
      rewrite Nat.add_0_r. exact Hn.
    + destruct (IH (S n)) as (k' & Hle & Hlow & Hhigh).
      { rewrite <- Hk. f_equal. lia. }
      exists (S k'). split; [lia|]. split.
      * intros [|j] Hj.
        -- rewrite Nat.add_0_r. exact Hn.
        -- rewrite <- (Hlow j) by lia. f_equal. lia.
      * rewrite <- Hhigh. f_equal. lia.
Qed.

Lemma responsive_first_ready b n :
  responsive b -> exists k, first_ready b n k.
Proof.
  intros Hb. destruct (Hb n) as [k Hk].
  destruct (first_ready_exists b n k Hk) as (k' & _ & H). exists k'. exact H.
Qed.

Lemma spin_until_rvsReady_run k : forall fuel w,
  first_ready (board w) (n_read w) k -> (k < fuel)%nat ->
  spin_until rvsReady fuel w =
  Done tt (advance 0 (S k) 0 (wait_trace k) (samples w) w).
Proof.
  induction k as [|k IH]; intros fuel w [Hlow Hhigh] Hfuel;
    (destruct fuel as [|fuel]; [lia|]); cbn [spin_until].
  - run_with rvsReady_run. rewrite Nat.add_0_r in Hhigh. rewrite Hhigh.
    reflexivity.
  - run_with rvsReady_run.
    assert (E : rvs_level (board w) (n_read w) = false)
      by (rewrite <- (Hlow 0%nat) by lia; f_equal; lia).
    rewrite E, (IH fuel).
    + autorewrite with world. reflexivity.
    + autorewrite with world. split.
      * intros j Hj. rewrite <- (Hlow (S j)) by lia. f_equal. lia.
      * rewrite <- Hhigh. f_equal. lia.
    + lia.
Qed.

(** ** Reading traces *)

Lemma exchanges_app d1 d2 :
  exchanges (d1 ++ d2) = (exchanges d1 + exchanges d2)%nat.
Proof. unfold exchanges. rewrite flat_map_app. apply length_app. Qed.

Lemma accesses_app d1 d2 : accesses (d1 ++ d2) = accesses d1 ++ accesses d2.
Proof. apply flat_map_app. Qed.

Lemma stores_app d1 d2 : stores (d1 ++ d2) = stores d1 ++ stores d2.
Proof. apply flat_map_app. Qed.

Lemma clock_reads_app d1 d2 :
  clock_reads (d1 ++ d2) = clock_reads d1 ++ clock_reads d2.
Proof. apply flat_map_app. Qed.

Lemma transfers_quiet out inp :
  flat_map select_of (zip_with EvTransfer out inp) = [] /\
  accesses (zip_with EvTransfer out inp) = [] /\
  stores (zip_with EvTransfer out inp) = [] /\
  clock_reads (zip_with EvTransfer out inp) = [].
Proof.
  revert inp. induction out as [|o out IH]; intros [|i inp];
    try (repeat split; reflexivity).
  destruct (IH inp) as (H1 & H2 & H3 & H4). repeat split; assumption.
Qed.

Lemma exchange_trace_reading out inp :
  exchanges (exchange_trace out inp) = 1%nat /\
  accesses (exchange_trace out inp) = [] /\
  stores (exchange_trace out inp) = [] /\
  clock_reads (exchange_trace out inp) = [].
Proof.
  destruct (transfers_quiet out inp) as (H1 & H2 & H3 & H4).
  unfold exchange_trace.
  rewrite !exchanges_app, !accesses_app, !stores_app, !clock_reads_app.
  unfold exchanges. rewrite H1, H2, H3, H4. repeat split; reflexivity.
Qed.

Lemma wait_trace_reading k :
  exchanges (wait_trace k) = 0%nat /\
  accesses (wait_trace k) = [] /\
  stores (wait_trace k) = [] /\
  clock_reads (wait_trace k) = [] /\
  polls (wait_trace k) = replicate k LOW ++ [HIGH].
Proof.
  unfold wait_trace. induction k as [|k (H1 & H2 & H3 & H4 & H5)].
  - repeat split; reflexivity.
  - repeat split; try assumption.
    cbn [replicate app]. change (polls ?l) with (flat_map poll_of l) in *.
    cbn [flat_map poll_of PIN_RVS]. rewrite H5. reflexivity.
Qed.

(** ** Device configurator *)

Lemma adsxConfigureBasic_run k fuel w :
  first_ready (board w) (n_read w) k -> (k < fuel)%nat ->
  adsxConfigureBasic fuel w =
  Done tt (advance 12 (S k) 0
             (configure_trace (board w) (n_transfer w) (vRange w) k)
             (samples w) w).
Proof.
  intros Hk Hfuel. unfold adsxConfigureBasic.
  run_with SPI_beginTransaction_run.
  erewrite bind_Done by (unfold get_vRange; reflexivity).
  autorewrite with world.
  run_with writeRegHWord_run.
  destruct (u16_payload (vRange w)) as [-> ->].
  run_with frameNOP_run.
  run_with SPI_endTransaction_run.
  erewrite bind_Done
    by (apply (spin_until_rvsReady_run k);
        [autorewrite with world; exact Hk | exact Hfuel]).
  autorewrite with world.
  run_with SPI_beginTransaction_run.
  run_with frameNOP_run.
  rewrite SPI_endTransaction_run. autorewrite with world.
  unfold configure_trace. rewrite <- !app_assoc. reflexivity.
Qed.

Lemma configure_trace_exchanges b n vr k :
  exchanges (configure_trace b n vr k) = 3%nat.
Proof.
  unfold configure_trace. rewrite !exchanges_app.
  rewrite !(proj1 (exchange_trace_reading _ _)).
  rewrite (proj1 (wait_trace_reading k)). reflexivity.
Qed.

(** C5. When RVS eventually reads high, [adsxConfigureBasic] performs
    exactly three exchanges whatever the number [k] of low reads: the
    write of register 0x14 with the reference-enable bits OR'd with the
    low four bits of [vRange], a no-op frame, then, after the wait ended on
    the first high read, one more no-op frame. *)
Theorem adsxConfigureBasic_three_exchanges w k0 :
  rvs_level (board w) (n_read w + k0) = true ->
  exists k, first_ready (board w) (n_read w) k /\
    forall fuel, (k < fuel)%nat ->
    exists w',
      adsxConfigureBasic fuel w = Done tt w' /\
      trace w' = trace w ++
        [EvBeginTransaction] ++
        exchange_trace
          [0xD0; 0x14; 0x00;
           Z.lor ADSX_INTREF_ENABLE (Z.land (vRange w) 0xF)]
          (rx4 (board w) (n_transfer w)) ++
        exchange_trace [0; 0; 0; 0] (rx4 (board w) (n_transfer w + 4)) ++
        [EvEndTransaction] ++
        replicate k (EvDigitalRead PIN_RVS LOW) ++
        [EvDigitalRead PIN_RVS HIGH] ++
        [EvBeginTransaction] ++
        exchange_trace [0; 0; 0; 0] (rx4 (board w) (n_transfer w + 8)) ++
        [EvEndTransaction] /\
      exchanges (drop (length (trace w)) (trace w')) = 3%nat.
Proof.
  intros Hk0.
  destruct (first_ready_exists _ _ _ Hk0) as (k & _ & Hk).
  exists k. split; [exact Hk|]. intros fuel Hfuel.
  eexists. split; [apply (adsxConfigureBasic_run k); assumption|].
  rewrite trace_advance, drop_app_length. split.
  - unfold configure_trace, wait_trace. rewrite <- !app_assoc. reflexivity.
  - apply configure_trace_exchanges.
Qed.

(** ** Capture engine *)

Lemma waits_exist b : responsive b ->
  forall m n, exists ks, length ks = m /\ waits b n ks.
Proof.
  intros Hb. induction m as [|m IH]; intros n.
  - exists []. split; [reflexivity|exact I].
  - destruct (responsive_first_ready b n Hb) as [k Hk].
    destruct (IH (n + S k)%nat) as (ks & Hlen & Hks).
    exists (k :: ks). split; [simpl; congruence|]. split; assumption.
Qed.

Lemma burst_loop_run fuel : forall ks i w,
  waits (board w) (n_read w) ks ->
  Forall (fun k => (k < fuel)%nat) ks ->
  0 <= i -> i + Z.of_nat (length ks) <= Z.of_nat (length (samples w)) ->
  i + Z.of_nat (length ks) < 2 ^ 32 ->
  for_loop (length ks) i
    (fun i => spin_until rvsReady fuel ;; v ← frameNOP; samples_store i v) w =
  Done tt
    (advance (4 * length ks) (sum_list (S <$> ks)) 0
       (burst_trace (board w) (n_transfer w) i ks)
       (burst_samples (board w) (n_transfer w) (Z.to_nat i) (length ks)
          (samples w))
       w).
Proof.
  induction ks as [|k ks IH]; intros i w Hw Hfuel Hi Hlen H32.
  - cbn. rewrite advance_id. reflexivity.
  - destruct Hw as [Hk Hw]. apply Forall_cons in Hfuel as [Hkf Hfuel].
    cbn [length] in *. cbn [for_loop].
    erewrite bind_Done; cycle 1.
    { erewrite bind_Done
        by (apply (spin_until_rvsReady_run k); [exact Hk|exact Hkf]).
      run_with frameNOP_run.
      rewrite samples_store_run by (autorewrite with world; lia).
      autorewrite with world. reflexivity. }
    assert (Eu : u32 (i + 1) = i + 1).
    { unfold u32. apply Z.mod_small. lia. }
    rewrite Eu, IH; autorewrite with world.
    + f_equal. apply World_eq; simpl; try reflexivity; try lia.
      * rewrite <- !app_assoc. reflexivity.
      * replace (Z.to_nat (i + 1)) with (S (Z.to_nat i)) by lia.
        reflexivity.
    + exact Hw.
    + exact Hfuel.
    + lia.
    + rewrite length_insert. lia.
    + lia.
Qed.

Lemma burst_samples_length b : forall n nt i s,
  length (burst_samples b nt i n s) = length s.
Proof.
  induction n as [|n IH]; intros nt i s; cbn [burst_samples].
  - reflexivity.
  - rewrite IH. apply length_insert.
Qed.

Lemma burst_samples_outside b : forall n nt i s (j : nat),
  (j < i \/ i + n <= j)%nat ->
  burst_samples b nt i n s !! j = s !! j.
Proof.
  induction n as [|n IH]; intros nt i s j Hj; cbn [burst_samples].
  - reflexivity.
  - rewrite IH by lia. apply list_lookup_insert_ne. lia.
Qed.

Lemma burst_samples_inside b : forall n nt i s (j : nat),
  (i + n <= length s)%nat -> (j < n)%nat ->
  burst_samples b nt i n s !! (i + j)%nat = Some (rx_word b (nt + 4 * j)).
Proof.
  induction n as [|n IH]; intros nt i s j Hlen Hj; cbn [burst_samples].
  - lia.
  - destruct j as [|j].
    + rewrite Nat.add_0_r, burst_samples_outside by lia.
      rewrite list_lookup_insert_eq by lia.
      do 2 f_equal. lia.
    + replace (i + S j)%nat with (S i + j)%nat by lia.
      rewrite IH by (rewrite ?length_insert; lia).
      do 2 f_equal. lia.
Qed.

Lemma burst_trace_reading b : forall ks nt i,
  exchanges (burst_trace b nt i ks) = length ks /\
  clock_reads (burst_trace b nt i ks) = [] /\
  stores (burst_trace b nt i ks) =
    map (fun j => (i + Z.of_nat j, rx_word b (nt + 4 * j)))
        (seq 0 (length ks)) /\
  accesses (burst_trace b nt i ks) =
    map (fun j => i + Z.of_nat j) (seq 0 (length ks)).
Proof.
  induction ks as [|k ks IH]; intros nt i.
  - repeat split; reflexivity.
  - destruct (IH (nt + 4)%nat (i + 1)) as (H1 & H2 & H3 & H4).
    destruct (wait_trace_reading k) as (W1 & W2 & W3 & W4 & _).
    destruct (exchange_trace_reading nop_frame (rx4 b nt))
      as (X1 & X2 & X3 & X4).
    cbn [burst_trace length seq map].
    rewrite !exchanges_app, !clock_reads_app, !stores_app, !accesses_app.
    rewrite H1, H2, H3, H4, W1, W2, W3, W4, X1, X2, X3, X4.
    rewrite <- !seq_shift, !map_map.
    repeat split; cbn [app]; try reflexivity.
    + change (stores [EvStore i (rx_word b nt)]) with [(i, rx_word b nt)].
      cbn [app]. f_equal.
      * f_equal; [lia|f_equal; lia].
      * apply map_ext. intros j. f_equal; [lia|f_equal; lia].
    + change (accesses [EvStore i (rx_word b nt)]) with [i].
      cbn [app]. f_equal; [lia|]. apply map_ext. intros j. lia.
Qed.

Lemma capture_fast_run fuel k0 ks w :
  first_ready (board w) (n_read w) k0 ->
  waits (board w) (n_read w + S k0) ks ->
  Forall (fun k => (k < fuel)%nat) (k0 :: ks) ->
  Z.of_nat (length ks) <= Z.of_nat (length (samples w)) ->
  Z.of_nat (length ks) < 2 ^ 32 ->
  capture_fast fuel (Z.of_nat (length ks)) w =
  Done (u32 (u32 (clock_us (board w) (n_micros w + 1)) -
             u32 (clock_us (board w) (n_micros w))))
    (advance (4 + 4 * length ks) (S k0 + sum_list (S <$> ks)) 2
       (capture_trace (board w) (n_transfer w) (n_micros w) k0 ks)
       (burst_samples (board w) (n_transfer w + 4) 0 (length ks) (samples w))
       w).
Proof.
  intros Hk0 Hks Hfuel Hlen H32. apply Forall_cons in Hfuel as [Hk0f Hfuel].
  unfold capture_fast.
  run_with SPI_beginTransaction_run.
  run_with frameNOP_run.
  run_with SPI_endTransaction_run.
  erewrite bind_Done
    by (apply (spin_until_rvsReady_run k0);
        [autorewrite with world; exact Hk0 | exact Hk0f]).
  autorewrite with world.
  run_with micros_run.
  run_with SPI_beginTransaction_run.
  rewrite Nat2Z.id.
  erewrite bind_Done; cycle 1.
  { rewrite burst_loop_run; autorewrite with world;
      [reflexivity | exact Hks | exact Hfuel | lia | lia | lia]. }
  run_with SPI_endTransaction_run.
  run_with micros_run.
  unfold ret, capture_trace. rewrite <- !app_assoc. reflexivity.
Qed.

Lemma fuel_covers ks fuel :
  (S (max_list ks) <= fuel)%nat -> Forall (fun k => (k < fuel)%nat) ks.
Proof.
  intros Hfuel. apply Forall_forall. intros k Hk.
  apply max_list_elem_of_le in Hk. lia.
Qed.

(** C2, within the capacity of the buffer. For [N <= SAMPLE_COUNT] and a
    device that keeps raising RVS, [capture_fast N] returns; it issued the
    start-conversion frame and the first wait, read the clock ([t0]), ran
    [N] wait-exchange-store rounds, read the clock again ([t1]) and
    returned [t1 - t0] modulo 2^32; entry [i] of the buffer, for [i < N],
    is the word received by the [i]-th exchange of the loop, and the
    entries from [N] on are untouched. *)
Theorem capture_fast_within_capacity N w :
  samples_ok w -> 0 <= N <= SAMPLE_COUNT -> responsive (board w) ->
  exists fuel0 k0 ks,
    length ks = Z.to_nat N /\
    forall fuel, (fuel0 <= fuel)%nat ->
    exists w',
      let b := board w in
      let t0 := u32 (clock_us b (n_micros w)) in
      let t1 := u32 (clock_us b (n_micros w + 1)) in
      let burst := burst_trace b (n_transfer w + 4) 0 ks in
      capture_fast fuel N w = Done (u32 (t1 - t0)) w' /\
      trace w' = trace w ++
        ([EvBeginTransaction] ++
         exchange_trace nop_frame (rx4 b (n_transfer w)) ++
         [EvEndTransaction] ++ wait_trace k0) ++
        [EvMicros t0] ++
        ([EvBeginTransaction] ++ burst ++ [EvEndTransaction]) ++
        [EvMicros t1] /\
      exchanges burst = Z.to_nat N /\
      clock_reads burst = [] /\
      stores burst =
        map (fun i => (Z.of_nat i, rx_word b (n_transfer w + 4 + 4 * i)))
            (seq 0 (Z.to_nat N)) /\
      (forall i, (i < Z.to_nat N)%nat ->
         samples w' !! i = Some (rx_word b (n_transfer w + 4 + 4 * i))) /\
      (forall i, (Z.to_nat N <= i)%nat -> samples w' !! i = samples w !! i) /\
      length (samples w') = length (samples w).
Proof.
  intros Hs HN Hb. unfold samples_ok, SAMPLE_COUNT in *.
  destruct (responsive_first_ready (board w) (n_read w) Hb) as [k0 Hk0].
  destruct (waits_exist (board w) Hb (Z.to_nat N) (n_read w + S k0)%nat)
    as (ks & Hlen & Hks).
  exists (S (max_list (k0 :: ks))), k0, ks. split; [exact Hlen|].
  intros fuel Hfuel. apply fuel_covers in Hfuel.
  assert (EN : N = Z.of_nat (length ks)) by lia.
  rewrite <- Hlen. clear Hlen. subst N.
  eexists. cbv zeta.
  split; [|split; [|split; [|split; [|split; [|split; [|split]]]]]].
  - apply (capture_fast_run fuel k0 ks); try assumption;
      change (2 ^ 32) with 4294967296; lia.
  - rewrite trace_advance. reflexivity.
  - apply burst_trace_reading.
  - apply burst_trace_reading.
  - destruct (burst_trace_reading (board w) ks (n_transfer w + 4)%nat 0)
      as (_ & _ & -> & _).
    reflexivity.
  - intros i Hi. rewrite samples_advance.
    rewrite (burst_samples_inside _ _ _ 0%nat _ i) by lia.
    reflexivity.
  - intros i Hi. rewrite samples_advance.
    apply burst_samples_outside. lia.
  - rewrite samples_advance. apply burst_samples_length.
Qed.

Lemma ready_board_responsive : responsive ready_board.
Proof. intros n. exists 0%nat. reflexivity. Qed.

Lemma boot_samples_ok b vr : samples_ok (boot b vr).
Proof. unfold samples_ok, boot. cbn [samples]. apply length_replicate. Qed.

Lemma capture_fast_within_capacity_witness :
  samples_ok (boot ready_board ADSX_RANGE_BIPOLAR_2P5X) /\
  0 <= 3 <= SAMPLE_COUNT /\
  responsive (board (boot ready_board ADSX_RANGE_BIPOLAR_2P5X)) /\
  exists (fuel0 k0 : nat) (ks : list nat),
    length ks = 3%nat /\
    forall fuel, (fuel0 <= fuel)%nat ->
    exists w',
      capture_fast fuel 3 (boot ready_board ADSX_RANGE_BIPOLAR_2P5X) =
        Done (u32 (u32 100 - u32 0)) w' /\
      firstn 3 (samples w') = [0x04050607; 0x08090A0B; 0x0C0D0E0F].
Proof.
  pose (w := boot ready_board ADSX_RANGE_BIPOLAR_2P5X).
  assert (H1 : samples_ok w) by apply boot_samples_ok.
  assert (H2 : 0 <= 3 <= SAMPLE_COUNT) by (unfold SAMPLE_COUNT; lia).
  assert (H3 : responsive (board w)) by exact ready_board_responsive.
  split; [exact H1|]. split; [exact H2|]. split; [exact H3|].
  destruct (capture_fast_within_capacity 3 w H1 H2 H3)
    as (fuel0 & k0 & ks & Hlen & H).
  exists fuel0, k0, ks. split; [exact Hlen|].
  intros fuel Hfuel.
  destruct (H fuel Hfuel) as (w' & Hrun & _ & _ & _ & _ & Hin & _).
  exists w'. split; [exact Hrun|].
  pose proof (Hin 0%nat ltac:(simpl; lia)) as E0.
  pose proof (Hin 1%nat ltac:(simpl; lia)) as E1.
  pose proof (Hin 2%nat ltac:(simpl; lia)) as E2.
  destruct (samples w') as [|x0 [|x1 [|x2 rest]]]; try discriminate.
  injection E0 as ->. injection E1 as ->. injection E2 as ->.
  reflexivity.
Defined.

(** C2 as stated, for every [N]: one entry past the capacity, the 257th
    store leaves the buffer, on a board whose RVS always reads high. *)
Lemma capture_fast_257_leaves_buffer :
  responsive ready_board /\
  samples_ok (boot ready_board ADSX_RANGE_BIPOLAR_2P5X) /\
  capture_fast 1 257 (boot ready_board ADSX_RANGE_BIPOLAR_2P5X) =
    OutOfBounds 256 /\
  ~ (exists fuel dt w',
       capture_fast fuel 257 (boot ready_board ADSX_RANGE_BIPOLAR_2P5X) =
         Done dt w').
Proof.
  split; [exact ready_board_responsive|].
  split; [apply boot_samples_ok|].
  split; [vm_compute; reflexivity|].
  intros (fuel & dt & w' & H).
  destruct fuel as [|fuel]; vm_compute in H; discriminate H.
Qed.

Lemma adsxConfigureBasic_three_exchanges_witness :
  rvs_level (board (boot slow_board 0xFFF9)) (n_read (boot slow_board 0xFFF9) + 5)
    = true /\
  exists k, first_ready slow_board 0 k /\
    forall fuel, (k < fuel)%nat ->
    exists w',
      adsxConfigureBasic fuel (boot slow_board 0xFFF9) = Done tt w' /\
      exchanges (trace w') = 3%nat.
Proof.
  assert (H : rvs_level (board (boot slow_board 0xFFF9))
                (n_read (boot slow_board 0xFFF9) + 5) = true) by reflexivity.
  split; [exact H|].
  destruct (adsxConfigureBasic_three_exchanges (boot slow_board 0xFFF9) 5 H)
    as (k & Hk & Hrun).
  exists k. split; [exact Hk|]. intros fuel Hfuel.
  destruct (Hrun fuel Hfuel) as (w' & Hw' & _ & Hx).
  exists w'. split; [exact Hw'|exact Hx].
Defined.

(** ** Buffer safety, for any fuel *)

Lemma wp_bind {A B : Type} (c : M A) (k : A -> M B) Q D w :
  wp c (fun a w' => wp (k a) Q D w') D w -> wp (bind c k) Q D w.
Proof. unfold wp, bind. destruct (c w); auto. Qed.

Lemma wp_Done {A : Type} (c : M A) (Q : A -> World -> Prop) D w a w' :
  c w = Done a w' -> Q a w' -> wp c Q D w.
Proof. intros H HQ. unfold wp. rewrite H. exact HQ. Qed.

Section Safety.

Variable N : Z.
Variable w0 : World.
Hypothesis N_fits : 0 <= N <= Z.of_nat (length (samples w0)).

Lemma indexed_below_start : indexed_below N w0 w0.
Proof.
  split; [reflexivity|]. exists []. split; [symmetry; apply app_nil_r|].
  constructor.
Qed.

Lemma indexed_below_advance dt dr dm d s w :
  indexed_below N w0 w ->
  length s = length (samples w) ->
  Forall (fun i => 0 <= i < N) (accesses d) ->
  indexed_below N w0 (advance dt dr dm d s w).
Proof.
  intros (Hlen & d0 & Htr & Hacc) Hs Hd. split.
  - rewrite samples_advance. congruence.
  - exists (d0 ++ d). rewrite trace_advance, Htr, app_assoc.
    split; [reflexivity|]. rewrite accesses_app. apply Forall_app. auto.
Qed.

Lemma safe_ret {A : Type} (a : A) : safe N w0 (ret a).
Proof. intros w Hw. exact Hw. Qed.

Lemma safe_bind {A B : Type} (c : M A) (k : A -> M B) :
  safe N w0 c -> (forall a, safe N w0 (k a)) -> safe N w0 (bind c k).
Proof.
  intros Hc Hk w Hw. apply wp_bind. specialize (Hc w Hw).
  unfold wp in *. destruct (c w); auto. apply Hk. exact Hc.
Qed.

Lemma safe_quiet {A : Type} (c : M A) :
  (forall w, exists a dt dr dm d,
     c w = Done a (advance dt dr dm d (samples w) w) /\ accesses d = []) ->
  safe N w0 c.
Proof.
  intros Hc w Hw. destruct (Hc w) as (a & dt & dr & dm & d & Hrun & Hd).
  eapply wp_Done; [exact Hrun|].
  apply indexed_below_advance; [exact Hw|reflexivity|].
  rewrite Hd. constructor.
Qed.

Lemma safe_SPI_beginTransaction : safe N w0 SPI_beginTransaction.
Proof.
  apply safe_quiet. intros w. do 5 eexists.
  split; [apply SPI_beginTransaction_run|reflexivity].
Qed.

Lemma safe_SPI_endTransaction : safe N w0 SPI_endTransaction.
Proof.
  apply safe_quiet. intros w. do 5 eexists.
  split; [apply SPI_endTransaction_run|reflexivity].
Qed.

Lemma safe_micros : safe N w0 micros.
Proof.
  apply safe_quiet. intros w. do 5 eexists.
  split; [apply micros_run|reflexivity].
Qed.

Lemma safe_frameNOP : safe N w0 frameNOP.
Proof.
  apply safe_quiet. intros w. do 5 eexists.
  split; [apply frameNOP_run|apply exchange_trace_reading].
Qed.

Lemma safe_rvsReady : safe N w0 rvsReady.
Proof.
  apply safe_quiet. intros w. do 5 eexists.
  split; [apply rvsReady_run|reflexivity].
Qed.

Lemma safe_spin_until (cond : M bool) fuel :
  safe N w0 cond -> safe N w0 (spin_until cond fuel).
Proof.
  intros Hc. induction fuel as [|fuel IH]; intros w Hw.
  - exact Hw.
  - cbn [spin_until]. apply safe_bind; [exact Hc| |exact Hw].
    intros [|]; [apply safe_ret|exact IH].
Qed.

Lemma safe_samples_store i v : 0 <= i < N -> safe N w0 (samples_store i v).
Proof.
  intros Hi w Hw. pose proof Hw as (Hlen & _).
  eapply wp_Done; [apply samples_store_run; lia|].
  apply indexed_below_advance; [exact Hw|apply length_insert|].
  repeat constructor; lia.
Qed.

Lemma safe_samples_load i : 0 <= i < N -> safe N w0 (samples_load i).
Proof.
  intros Hi w Hw. pose proof Hw as (Hlen & _).
  destruct (lookup_lt_is_Some_2 (samples w) (Z.to_nat i)) as [v Hv]; [lia|].
  eapply wp_Done; [apply (samples_load_run i v); [lia|exact Hv]|].
  apply indexed_below_advance; [exact Hw|reflexivity|].
  repeat constructor; lia.
Qed.

Lemma safe_for_loop (body : Z -> M unit) : forall n i,
  0 <= i -> i + Z.of_nat n <= N -> N < 2 ^ 32 ->
  (forall j, i <= j < i + Z.of_nat n -> safe N w0 (body j)) ->
  safe N w0 (for_loop n i body).
Proof.
  induction n as [|n IH]; intros i Hi Hn H32 Hbody; cbn [for_loop].
  - apply safe_ret.
  - apply safe_bind; [apply Hbody; lia|]. intros _.
    replace (u32 (i + 1)) with (i + 1)
      by (symmetry; apply Z.mod_small; lia).
    apply IH; try lia. intros j Hj. apply Hbody. lia.
Qed.

Lemma safe_capture_fast fuel : N < 2 ^ 32 -> safe N w0 (capture_fast fuel N).
Proof.
  intros H32. unfold capture_fast.
  apply safe_bind; [apply safe_SPI_beginTransaction|intros _].
  apply safe_bind; [apply safe_frameNOP|intros _].
  apply safe_bind; [apply safe_SPI_endTransaction|intros _].
  apply safe_bind; [apply safe_spin_until, safe_rvsReady|intros _].
  apply safe_bind; [apply safe_micros|intros t0].
  apply safe_bind; [apply safe_SPI_beginTransaction|intros _].
  apply safe_bind.
  { apply safe_for_loop; try lia. intros j Hj.
    apply safe_bind; [apply safe_spin_until, safe_rvsReady|intros _].
    apply safe_bind; [apply safe_frameNOP|intros v].
    apply safe_samples_store. lia. }
  intros _.
  apply safe_bind; [apply safe_SPI_endTransaction|intros _].
  apply safe_bind; [apply safe_micros|intros t1].
  apply safe_ret.
Qed.

End Safety.

(** ** Post-processor *)

Lemma decode_trace_insert build : forall n i s j x,
  (j < i)%nat ->
  decode_trace build i n (<[j := x]> s) = decode_trace build i n s.
Proof.
  induction n as [|n IH]; intros i s j x Hj; cbn [decode_trace].
  - reflexivity.
  - rewrite list_lookup_insert_ne by lia.
    destruct (s !! i); [|reflexivity]. rewrite IH by lia. reflexivity.
Qed.

Lemma decode_loop_run build : forall n i w,
  (i + n <= length (samples w))%nat -> Z.of_nat (i + n) < 2 ^ 32 ->
  for_loop n (Z.of_nat i)
    (fun i => raw ← samples_load i;
              samples_store i (decode_sample build raw)) w =
  Done tt (advance 0 0 0 (decode_trace build i n (samples w))
             (decoded build i n (samples w)) w).
Proof.
  induction n as [|n IH]; intros i w Hlen H32.
  - cbn. rewrite advance_id. reflexivity.
  - destruct (lookup_lt_is_Some_2 (samples w) i) as [raw Hraw]; [lia|].
    cbn [for_loop decode_trace decoded]. rewrite Hraw.
    erewrite bind_Done; cycle 1.
    { erewrite bind_Done
        by (apply (samples_load_run _ raw); [lia|rewrite Nat2Z.id; exact Hraw]).
      rewrite samples_store_run by (autorewrite with world; lia).
      autorewrite with world. rewrite Nat2Z.id. reflexivity. }
    replace (u32 (Z.of_nat i + 1)) with (Z.of_nat (S i))
      by (symmetry; unfold u32; rewrite Z.mod_small; lia).
    rewrite IH; autorewrite with world.
    + rewrite decode_trace_insert by lia. rewrite <- app_assoc. reflexivity.
    + rewrite length_insert. lia.
    + lia.
Qed.

Lemma decoded_length build : forall n i s,
  length (decoded build i n s) = length s.
Proof.
  induction n as [|n IH]; intros i s; cbn [decoded].
  - reflexivity.
  - destruct (s !! i); [|reflexivity]. rewrite IH. apply length_insert.
Qed.

Lemma decoded_outside build : forall n i s (j : nat),
  (j < i \/ i + n <= j)%nat -> decoded build i n s !! j = s !! j.
Proof.
  induction n as [|n IH]; intros i s j Hj; cbn [decoded].
  - reflexivity.
  - destruct (s !! i); [|reflexivity].
    rewrite IH by lia. apply list_lookup_insert_ne. lia.
Qed.

Lemma decoded_inside build : forall n i s (j : nat),
  (i + n <= length s)%nat -> (i <= j < i + n)%nat ->
  decoded build i n s !! j = decode_sample build <$> s !! j.
Proof.
  induction n as [|n IH]; intros i s j Hlen Hj; cbn [decoded].
  - lia.
  - destruct (lookup_lt_is_Some_2 s i) as [raw Hraw]; [lia|]. rewrite Hraw.
    destruct (decide (j = i)) as [->|Hne].
    + rewrite decoded_outside by lia.
      rewrite list_lookup_insert_eq by lia. rewrite Hraw. reflexivity.
    + rewrite IH by (rewrite ?length_insert; lia).
      rewrite list_lookup_insert_ne by lia. reflexivity.
Qed.

Lemma decode_trace_accesses build : forall n i s,
  Forall (fun j => Z.of_nat i <= j < Z.of_nat (i + n))
         (accesses (decode_trace build i n s)).
Proof.
  induction n as [|n IH]; intros i s; cbn [decode_trace].
  - constructor.
  - destruct (s !! i); [|constructor].
    change (accesses ?l) with (flat_map access_of l).
    cbn [app flat_map access_of].
    do 2 (constructor; [lia|]).
    eapply Forall_impl; [apply (IH (S i) s)|]. cbv beta. intros j Hj. lia.
Qed.

Lemma decode_samples_in_place_run build N w :
  N < 2 ^ 32 -> N <= Z.of_nat (length (samples w)) ->
  decode_samples_in_place build N w =
  Done tt (advance 0 0 0 (decode_trace build 0 (Z.to_nat N) (samples w))
             (decoded build 0 (Z.to_nat N) (samples w)) w).
Proof.
  intros H32 HN. unfold decode_samples_in_place.
  apply (decode_loop_run build (Z.to_nat N) 0%nat w); lia.
Qed.

(** C7. One run of [decode_samples_in_place N] on a buffer that has its
    first [N] entries replaces each of them by its old value shifted right
    by [ADSX_CODE_SHIFT] and masked with [ADSX_CODE_MASK], a code in
    [0, ADSX_CODE_MASK], and leaves the other entries alone; raw frames
    that agree on the bits [shift, shift + width) decode to the same
    code. *)
Theorem decode_samples_in_place_spec build N w :
  N < 2 ^ 32 -> N <= Z.of_nat (length (samples w)) ->
  exists w',
    decode_samples_in_place build N w = Done tt w' /\
    (forall i, (i < Z.to_nat N)%nat ->
       exists raw,
         samples w !! i = Some raw /\
         samples w' !! i =
           Some (Z.land (Z.shiftr raw (ADSX_CODE_SHIFT build))
                        (ADSX_CODE_MASK build)) /\
         0 <= Z.land (Z.shiftr raw (ADSX_CODE_SHIFT build))
                     (ADSX_CODE_MASK build) <= ADSX_CODE_MASK build) /\
    (forall i, (Z.to_nat N <= i)%nat -> samples w' !! i = samples w !! i) /\
    (forall raw1 raw2,
       (forall n, ADSX_CODE_SHIFT build <= n
                    < ADSX_CODE_SHIFT build + ADSX_BITS build ->
                  Z.testbit raw1 n = Z.testbit raw2 n) ->
       decode_sample build raw1 = decode_sample build raw2).
Proof.
  intros H32 HN. eexists.
  split; [apply decode_samples_in_place_run; assumption|].
  rewrite samples_advance.
  split; [|split].
  - intros i Hi.
    destruct (lookup_lt_is_Some_2 (samples w) i) as [raw Hraw]; [lia|].
    exists raw. split; [exact Hraw|]. split.
    + rewrite decoded_inside by lia. rewrite Hraw. reflexivity.
    + apply decode_sample_range.
  - intros i Hi. apply decoded_outside. lia.
  - apply decode_sample_field.
Qed.

Lemma decode_samples_in_place_spec_witness :
  256 < 2 ^ 32 /\
  256 <= Z.of_nat (length (samples
           (set_samples (replicate 256 0xABCDE123) (boot ready_board 1)))) /\
  exists w',
    decode_samples_in_place Bits18 256
      (set_samples (replicate 256 0xABCDE123) (boot ready_board 1))
      = Done tt w' /\
    samples w' !! 255%nat = Some 0x2AF37.
Proof.
  assert (H1 : 256 < 2 ^ 32) by reflexivity.
  pose (w := set_samples (replicate 256 0xABCDE123) (boot ready_board 1)).
  assert (H2 : 256 <= Z.of_nat (length (samples w))) by (vm_compute; discriminate).
  split; [exact H1|]. split; [exact H2|].
  destruct (decode_samples_in_place_spec Bits18 256 w H1 H2)
    as (w' & Hrun & Hin & _).
  exists w'. split; [exact Hrun|].
  destruct (Hin 255%nat ltac:(simpl; lia)) as (raw & Hraw & Hnew & _).
  injection Hraw as <-. exact Hnew.
Defined.

(** C9. With [N <= SAMPLE_COUNT], whatever the fuel, [capture_fast N]
    never indexes [samples] out of bounds and every index it uses lies in
    [0, N-1]; the same holds for [decode_samples_in_place N], which always
    returns. *)
Theorem samples_accesses_in_bounds build N w :
  samples_ok w -> 0 <= N <= SAMPLE_COUNT ->
  (forall fuel,
     match capture_fast fuel N w with
     | Done _ w' | Spinning w' =>
         exists delta, trace w' = trace w ++ delta /\
           Forall (fun i => 0 <= i <= N - 1 /\ i < SAMPLE_COUNT)
                  (accesses delta)
     | OutOfBounds _ => False
     end) /\
  match decode_samples_in_place build N w with
  | Done _ w' =>
      exists delta, trace w' = trace w ++ delta /\
        Forall (fun i => 0 <= i <= N - 1 /\ i < SAMPLE_COUNT)
               (accesses delta)
  | OutOfBounds _ | Spinning _ => False
  end.
Proof.
  intros Hs HN. split.
  - intros fuel.
    assert (Hfit : 0 <= N <= Z.of_nat (length (samples w))).
    { unfold samples_ok in Hs. rewrite Hs. unfold SAMPLE_COUNT in *. lia. }
    assert (H32 : N < 2 ^ 32).
    { unfold SAMPLE_COUNT in HN. change (2 ^ 32) with 4294967296. lia. }
    pose proof (safe_capture_fast N w Hfit fuel H32 w
                  (indexed_below_start N w)) as H.
    unfold wp in H.
    destruct (capture_fast fuel N w) as [a w'|i|w']; [| exact H |];
      destruct H as (_ & delta & Htr & Hacc); exists delta;
      (split; [exact Htr|]);
      (eapply Forall_impl; [exact Hacc|]); cbv beta; intros i Hi; lia.
  - unfold samples_ok, SAMPLE_COUNT in *.
    rewrite decode_samples_in_place_run
      by (change (2 ^ 32) with 4294967296; lia).
    eexists. split; [apply trace_advance|].
    eapply Forall_impl; [apply decode_trace_accesses|].
    cbv beta. intros i Hi. lia.
Qed.

Lemma samples_accesses_in_bounds_witness :
  samples_ok (boot slow_board 1) /\ 0 <= 256 <= SAMPLE_COUNT /\
  (forall fuel, capture_fast fuel 256 (boot slow_board 1) <> OutOfBounds 256).
Proof.
  assert (H2 : 0 <= 256 <= SAMPLE_COUNT) by (unfold SAMPLE_COUNT; lia).
  generalize (boot_samples_ok slow_board 1).
  generalize (boot slow_board 1). intros w H1.
  split; [exact H1|]. split; [exact H2|].
  intros fuel.
  pose proof (samples_accesses_in_bounds Bits18 256 w H1 H2) as [H _].
  specialize (H fuel).
  destruct (capture_fast fuel 256 w); intros E;
    [discriminate E|exact H|discriminate E].
Defined.

(** ** The range selector reaches the device through its low four bits *)

Lemma vRange_blind_bind {A B : Type} (c : M A) (k : A -> M B) :
  vRange_blind c -> (forall a, vRange_blind (k a)) -> vRange_blind (bind c k).
Proof.
  intros Hc Hk v w. unfold bind. rewrite Hc.
  destruct (c w) as [a w'| |]; cbn [outcome_map]; [apply Hk|reflexivity..].
Qed.

Lemma vRange_blind_ret {A : Type} (a : A) : vRange_blind (ret a).
Proof. intros v w. reflexivity. Qed.

Lemma vRange_blind_xfer32 b0 b1 b2 b3 : vRange_blind (xfer32 b0 b1 b2 b3).
Proof.
  unfold xfer32.
  repeat (apply vRange_blind_bind; [intros v w; reflexivity|intros ?]).
  apply vRange_blind_ret.
Qed.

Lemma vRange_blind_rvsReady : vRange_blind rvsReady.
Proof.
  unfold rvsReady. apply vRange_blind_bind; [intros v w; reflexivity|intros ?].
  apply vRange_blind_ret.
Qed.

Lemma vRange_blind_spin_until cond fuel :
  vRange_blind cond -> vRange_blind (spin_until cond fuel).
Proof.
  intros Hc. induction fuel as [|fuel IH]; cbn [spin_until].
  - intros v w. reflexivity.
  - apply vRange_blind_bind; [exact Hc|].
    intros [|]; [apply vRange_blind_ret|exact IH].
Qed.

Lemma vRange_blind_configure_flush fuel : vRange_blind (configure_flush fuel).
Proof.
  unfold configure_flush.
  apply vRange_blind_bind;
    [apply vRange_blind_spin_until, vRange_blind_rvsReady|intros _].
  apply vRange_blind_bind; [intros v w; reflexivity|intros _].
  apply vRange_blind_bind; [apply vRange_blind_xfer32|intros _].
  intros v w; reflexivity.
Qed.

Lemma outcome_trace_set_vRange {A : Type} v (o : Outcome A) :
  outcome_trace (outcome_map (set_vRange v) o) = outcome_trace o.
Proof. destruct o; reflexivity. Qed.

Lemma adsxConfigureBasic_head fuel w :
  adsxConfigureBasic fuel w =
  configure_flush fuel
    (advance 8 0 0
       (configure_head_trace (board w) (n_transfer w) (vRange w))
       (samples w) w).
Proof.
  unfold adsxConfigureBasic.
  run_with SPI_beginTransaction_run.
  erewrite bind_Done by (unfold get_vRange; reflexivity).
  autorewrite with world.
  run_with writeRegHWord_run.
  destruct (u16_payload (vRange w)) as [-> ->].
  run_with frameNOP_run.
  run_with SPI_endTransaction_run.
  unfold configure_head_trace. rewrite <- !app_assoc. reflexivity.
Qed.

Lemma configure_flush_trace fuel w :
  exists rest, outcome_trace (configure_flush fuel w) = Some (trace w ++ rest).
Proof.
  assert (Hfit : 0 <= 0 <= Z.of_nat (length (samples w))) by lia.
  assert (Hsafe : safe 0 w (configure_flush fuel)).
  { unfold configure_flush.
    apply safe_bind; [apply safe_spin_until, safe_rvsReady|intros _].
    apply safe_bind; [apply safe_SPI_beginTransaction|intros _].
    apply safe_bind; [apply safe_frameNOP|intros _].
    apply safe_SPI_endTransaction. }
  specialize (Hsafe w (indexed_below_start 0 w)). unfold wp in Hsafe.
  destruct (configure_flush fuel w) as [a w'|i|w']; [|destruct Hsafe|];
    destruct Hsafe as (_ & rest & Htr & _); exists rest;
    cbn [outcome_trace]; rewrite Htr; reflexivity.
Qed.

(** C10. Only the low four bits of the range selector matter:
    [adsxRangeMultiplier c] is [adsxRangeMultiplier (c & 0xF)] for every
    [c], and [adsxConfigureBasic] sends the register write
    [0xD0, 0x14, 0x00, vRange & 0xF], so that it leaves the same trace
    when [vRange] is replaced by [vRange & 0xF]. *)
Theorem range_selector_low_bits :
  (forall c, adsxRangeMultiplier c = adsxRangeMultiplier (Z.land c 0xF)) /\
  (forall fuel w, exists rest,
     outcome_trace (adsxConfigureBasic fuel w) =
       Some (trace w ++ [EvBeginTransaction] ++
             exchange_trace [0xD0; 0x14; 0x00; Z.land (vRange w) 0xF]
                            (rx4 (board w) (n_transfer w)) ++
             rest)) /\
  (forall fuel w,
     outcome_trace (adsxConfigureBasic fuel w) =
     outcome_trace
       (adsxConfigureBasic fuel (set_vRange (Z.land (vRange w) 0xF) w))).
Proof.
  split; [|split].
  - intros c. symmetry. apply adsxRangeMultiplier_low_bits.
  - intros fuel w. rewrite adsxConfigureBasic_head.
    destruct (configure_flush_trace fuel
                (advance 8 0 0
                   (configure_head_trace (board w) (n_transfer w) (vRange w))
                   (samples w) w)) as [rest ->].
    exists (exchange_trace nop_frame (rx4 (board w) (n_transfer w + 4)) ++
            [EvEndTransaction] ++ rest).
    rewrite trace_advance. unfold configure_head_trace.
    rewrite <- !app_assoc. reflexivity.
  - intros fuel w. rewrite !adsxConfigureBasic_head.
    set (v := Z.land (vRange w) 0xF).
    replace (advance 8 0 0
               (configure_head_trace (board (set_vRange v w))
                  (n_transfer (set_vRange v w)) (vRange (set_vRange v w)))
               (samples (set_vRange v w)) (set_vRange v w))
      with (set_vRange v
              (advance 8 0 0
                 (configure_head_trace (board w) (n_transfer w) (vRange w))
                 (samples w) w)).
    + rewrite vRange_blind_configure_flush, outcome_trace_set_vRange.
      reflexivity.
    + apply World_eq; try reflexivity.
      cbn [trace set_vRange advance vRange board n_transfer].
      unfold configure_head_trace, v. rewrite land_0xF_idem. reflexivity.
Qed.

(** * Further properties *)

(** ** Frames as bytes *)

Lemma pack32_bytes r0 r1 r2 r3 :
  0 <= r0 < 256 -> 0 <= r1 < 256 -> 0 <= r2 < 256 -> 0 <= r3 < 256 ->
  let v := pack32 r0 r1 r2 r3 in
  0 <= v < 2 ^ 32 /\
  Z.land (Z.shiftr v 24) 0xFF = r0 /\ Z.land (Z.shiftr v 16) 0xFF = r1 /\
  Z.land (Z.shiftr v 8) 0xFF = r2 /\ Z.land v 0xFF = r3.
Proof.
  intros H0 H1 H2 H3 v. subst v.
  rewrite (proj2 (pack32_big_endian r0 r1 r2 r3 H0 H1 H2 H3)).
  change 0xFF with (Z.ones 8). rewrite !Z.land_ones by lia.
  rewrite !Z.shiftr_div_pow2 by lia.
  change (2 ^ 32) with 4294967296. change (2 ^ 24) with 16777216.
  change (2 ^ 16) with 65536. change (2 ^ 8) with 256.
  repeat split; Z.to_euclidean_division_equations; lia.
Qed.

(** X1. The word [xfer32] returns is a 32-bit value whose four bytes, from
    the most significant one down, are the bytes received on the four
    transfers, in the order of the transfers. *)
Theorem xfer32_result_bytes b0 b1 b2 b3 w :
  exists v w',
    xfer32 b0 b1 b2 b3 w = Done v w' /\
    0 <= v < 2 ^ 32 /\
    Z.land (Z.shiftr v 24) 0xFF = rx (board w) (n_transfer w) /\
    Z.land (Z.shiftr v 16) 0xFF = rx (board w) (n_transfer w + 1) /\
    Z.land (Z.shiftr v 8) 0xFF = rx (board w) (n_transfer w + 2) /\
    Z.land v 0xFF = rx (board w) (n_transfer w + 3).
Proof.
  do 2 eexists. split; [apply xfer32_run|].
  unfold rx_word. apply pack32_bytes; apply rx_range.
Qed.

Lemma sent_exchange_trace o0 o1 o2 o3 i0 i1 i2 i3 :
  sent (exchange_trace [o0; o1; o2; o3] [i0; i1; i2; i3]) = [o0; o1; o2; o3].
Proof. reflexivity. Qed.

(** X2. The frame of a register write determines the write: two calls of
    [writeRegHWord] that put the same bytes on the bus have the same
    register address and the same 16-bit data. *)
Theorem writeRegHWord_frame_injective addr1 data1 addr2 data2 w1 w2 :
  0 <= data1 < 2 ^ 16 -> 0 <= data2 < 2 ^ 16 ->
  sent_by (writeRegHWord addr1 data1) w1 =
  sent_by (writeRegHWord addr2 data2) w2 ->
  addr1 = addr2 /\ data1 = data2.
Proof.
  intros H1 H2. unfold sent_by. rewrite !writeRegHWord_run.
  rewrite !trace_advance, !drop_app_length. unfold rx4.
  rewrite !sent_exchange_trace. intros E.
  injection E as Ea Ehi Elo. split; [exact Ea|].
  unfold u8 in *. rewrite !Z.shiftr_div_pow2 in Ehi by lia.
  change (2 ^ 16) with 65536 in *. change (2 ^ 8) with 256 in *.
  Z.to_euclidean_division_equations. lia.
Qed.

Lemma writeRegHWord_frame_injective_witness :
  0 <= 0x0009 < 2 ^ 16 /\ 0 <= 0x0009 < 2 ^ 16 /\
  sent_by (writeRegHWord 0x14 0x0009) (boot ready_board 9) =
  sent_by (writeRegHWord 0x14 0x0009) (boot slow_board 9) /\
  0x14 = 0x14 /\ 0x0009 = 0x0009.
Proof.
  assert (H : 0 <= 0x0009 < 2 ^ 16) by (split; [discriminate|reflexivity]).
  assert (E : sent_by (writeRegHWord 0x14 0x0009) (boot ready_board 9) =
              sent_by (writeRegHWord 0x14 0x0009) (boot slow_board 9))
    by reflexivity.
  split; [exact H|]. split; [exact H|]. split; [exact E|].
  exact (writeRegHWord_frame_injective 0x14 0x0009 0x14 0x0009 _ _ H H E).
Defined.

(** X3. The code decoded from a received frame in terms of its bytes: on
    the 16-bit build it is the first two bytes, big-endian; on the 18-bit
    build the first two bytes and the top two bits of the third. The
    fourth byte never matters. *)
Theorem decode_sample_received_bytes b n :
  decode_sample Bits16 (rx_word b n) = rx b n * 256 + rx b (n + 1) /\
  decode_sample Bits18 (rx_word b n) =
    rx b n * 1024 + rx b (n + 1) * 4 + rx b (n + 2) / 64.
Proof.
  pose proof (rx_range b n) as H0. pose proof (rx_range b (n + 1)) as H1.
  pose proof (rx_range b (n + 2)) as H2. pose proof (rx_range b (n + 3)) as H3.
  rewrite !decode_sample_mod. unfold rx_word.
  rewrite (proj2 (pack32_big_endian _ _ _ _ H0 H1 H2 H3)).
  change (ADSX_CODE_SHIFT Bits16) with 16. change (ADSX_BITS Bits16) with 16.
  change (ADSX_CODE_SHIFT Bits18) with 14. change (ADSX_BITS Bits18) with 18.
  change (2 ^ 24) with 16777216. change (2 ^ 18) with 262144.
  change (2 ^ 16) with 65536. change (2 ^ 14) with 16384.
  change (2 ^ 8) with 256.
  split; Z.to_euclidean_division_equations; lia.
Qed.

Lemma decode_sample_again build raw :
  let c := decode_sample build raw in
  decode_sample build c = Z.shiftr c (ADSX_CODE_SHIFT build) /\
  0 <= Z.shiftr c (ADSX_CODE_SHIFT build)
    <= match build with Bits16 => 0 | Bits18 => 15 end.
Proof.
  intros c. pose proof (decode_sample_range build raw) as Hc. fold c in Hc.
  rewrite decode_sample_mod, Z.shiftr_div_pow2 by (destruct build; discriminate).
  destruct build;
    change (ADSX_CODE_MASK Bits16) with 65535 in Hc;
    change (ADSX_CODE_MASK Bits18) with 262143 in Hc;
    change (ADSX_CODE_SHIFT Bits16) with 16;
    change (ADSX_BITS Bits16) with 16;
    change (ADSX_CODE_SHIFT Bits18) with 14;
    change (ADSX_BITS Bits18) with 18;
    change (2 ^ 18) with 262144; change (2 ^ 16) with 65536;
    change (2 ^ 14) with 16384;
    split; Z.to_euclidean_division_equations; lia.
Qed.

(** X4. [decode_samples_in_place] is not idempotent: run a second time on
    the same entries it shifts the codes out, leaving 0 on the 16-bit build
    and at most 15 (the top four bits of the code) on the 18-bit build. *)
Theorem decode_samples_in_place_twice build N w :
  N < 2 ^ 32 -> N <= Z.of_nat (length (samples w)) ->
  exists w1 w2,
    decode_samples_in_place build N w = Done tt w1 /\
    decode_samples_in_place build N w1 = Done tt w2 /\
    forall i, (i < Z.to_nat N)%nat ->
      exists raw,
        samples w !! i = Some raw /\
        samples w1 !! i = Some (decode_sample build raw) /\
        samples w2 !! i =
          Some (Z.shiftr (decode_sample build raw) (ADSX_CODE_SHIFT build)) /\
        0 <= Z.shiftr (decode_sample build raw) (ADSX_CODE_SHIFT build)
          <= match build with Bits16 => 0 | Bits18 => 15 end.
Proof.
  intros H32 HN. do 2 eexists.
  split; [apply decode_samples_in_place_run; assumption|].
  split.
  { apply decode_samples_in_place_run; [assumption|].
    rewrite samples_advance, decoded_length. exact HN. }
  intros i Hi. rewrite !samples_advance.
  destruct (lookup_lt_is_Some_2 (samples w) i) as [raw Hraw]; [lia|].
  exists raw. split; [exact Hraw|].
  assert (E1 : decoded build 0 (Z.to_nat N) (samples w) !! i =
               Some (decode_sample build raw)).
  { rewrite decoded_inside by lia. rewrite Hraw. reflexivity. }
  split; [exact E1|].
  destruct (decode_sample_again build raw) as [E2 Hr].
  split; [|exact Hr].
  rewrite decoded_inside by (rewrite ?decoded_length; lia).
  rewrite E1. cbn [fmap option_fmap option_map]. rewrite E2. reflexivity.
Qed.

Lemma decode_samples_in_place_twice_witness :
  2 < 2 ^ 32 /\
  2 <= Z.of_nat (length (samples
         (set_samples [0xABCDE123; 0xFFFFFFFF] (boot ready_board 1)))) /\
  exists w1 w2,
    decode_samples_in_place Bits18 2
      (set_samples [0xABCDE123; 0xFFFFFFFF] (boot ready_board 1))
      = Done tt w1 /\
    decode_samples_in_place Bits18 2 w1 = Done tt w2.
Proof.
  assert (H1 : 2 < 2 ^ 32) by reflexivity.
  assert (H2 : 2 <= Z.of_nat (length (samples
            (set_samples [0xABCDE123; 0xFFFFFFFF] (boot ready_board 1)))))
    by (vm_compute; discriminate).
  split; [exact H1|]. split; [exact H2|].
  destruct (decode_samples_in_place_twice Bits18 2 _ H1 H2)
    as (w1 & w2 & E1 & E2 & _).
  exists w1, w2. split; [exact E1|exact E2].
Defined.

(** ** The converter's inputs *)

(** X5. The converter follows the range register: when two runs of
    [adsxConfigureBasic] put the same bytes on the bus, [adsxCodeToVolts]
    converts every code alike under their two values of [vRange]. *)
Theorem adsxCodeToVolts_follows_configuration fuel w1 w2 build code :
  sent_by (adsxConfigureBasic fuel) w1 = sent_by (adsxConfigureBasic fuel) w2 ->
  adsxCodeToVolts build (vRange w1) code =
  adsxCodeToVolts build (vRange w2) code.
Proof.
  assert (Hsent : forall w, exists rest,
    sent_by (adsxConfigureBasic fuel) w =
    [0xD0; 0x14; 0x00; Z.land (vRange w) 0xF] ++ rest).
  { intros w. unfold sent_by. rewrite adsxConfigureBasic_head.
    set (w' := advance 8 0 0 _ (samples w) w).
    destruct (configure_flush_trace fuel w') as [rest Hrest].
    assert (Htr : trace w' = trace w ++
              configure_head_trace (board w) (n_transfer w) (vRange w))
      by reflexivity.
    rewrite Htr in Hrest.
    destruct (configure_flush fuel w') as [a w''|i|w'']; try discriminate;
      cbn [outcome_trace] in Hrest; injection Hrest as Htr2;
      eexists; rewrite Htr2, <- app_assoc, drop_app_length;
      unfold sent; rewrite flat_map_app;
      unfold configure_head_trace, rx4, nop_frame;
      cbn [app flat_map sent_of exchange_trace zip_with];
      reflexivity. }
  destruct (Hsent w1) as [rest1 ->]. destruct (Hsent w2) as [rest2 ->].
  intros E. injection E as E _.
  rewrite <- (adsxCodeToVolts_low_bits build (vRange w1)),
          <- (adsxCodeToVolts_low_bits build (vRange w2)), E.
  reflexivity.
Qed.

Lemma adsxCodeToVolts_follows_configuration_witness :
  sent_by (adsxConfigureBasic 3) (boot slow_board 0xFFF9) =
  sent_by (adsxConfigureBasic 3) (boot slow_board 0x0009) /\
  adsxCodeToVolts Bits18 0xFFF9 1000 = adsxCodeToVolts Bits18 0x0009 1000.
Proof.
  assert (E : sent_by (adsxConfigureBasic 3) (boot slow_board 0xFFF9) =
              sent_by (adsxConfigureBasic 3) (boot slow_board 0x0009))
    by (vm_compute; reflexivity).
  split; [exact E|].
  exact (adsxCodeToVolts_follows_configuration 3 _ _ Bits18 1000 E).
Defined.

(** X6. Zero volts is a code of every range: mid-scale
    [2^(ADSX_BITS-1)] converts to exactly [+0.0] on the bipolar ranges,
    and code 0 on the unipolar ones (the fallback included). *)
Theorem adsxCodeToVolts_zero_volts build vRange :
  adsxCodeToVolts build vRange
    (if snd (adsxRangeMultiplier vRange)
     then 2 ^ (ADSX_BITS build - 1) else 0) = S754_zero false.
Proof.
  rewrite <- adsxCodeToVolts_low_bits, <- (adsxRangeMultiplier_low_bits vRange).
  pose proof (land_0xF_cases vRange) as H. simpl in H.
  destruct build;
    repeat (destruct H as [<-|H]; [vm_compute; reflexivity|]);
    destruct H.
Qed.

(** ** What the calls leave alone, for any fuel *)

Section Preserves.

Variable R : World -> World -> Prop.
Hypothesis R_refl : forall w, R w w.
Hypothesis R_trans : forall w1 w2 w3, R w1 w2 -> R w2 w3 -> R w1 w3.

Lemma preserves_ret {A : Type} (a : A) : preserves R (ret a).
Proof. intros w. apply R_refl. Qed.

Lemma preserves_bind {A B : Type} (c : M A) (k : A -> M B) :
  preserves R c -> (forall a, preserves R (k a)) -> preserves R (bind c k).
Proof.
  intros Hc Hk w. specialize (Hc w). unfold bind.
  destruct (c w) as [a w'|i|w']; cbn [outcome_rel] in *; try assumption.
  specialize (Hk a w').
  destruct (k a w') as [b w''|i|w'']; cbn [outcome_rel] in *;
    try exact I; eapply R_trans; eassumption.
Qed.

Lemma preserves_run {A : Type} (c : M A) :
  (forall w, exists a w', c w = Done a w' /\ R w w') -> preserves R c.
Proof. intros Hc w. destruct (Hc w) as (a & w' & -> & HR). exact HR. Qed.

Lemma preserves_spin_until (cond : M bool) fuel :
  preserves R cond -> preserves R (spin_until cond fuel).
Proof.
  intros Hc. induction fuel as [|fuel IH]; cbn [spin_until].
  - intros w. apply R_refl.
  - apply preserves_bind; [exact Hc|].
    intros [|]; [apply preserves_ret|exact IH].
Qed.

Lemma preserves_for_loop (body : Z -> M unit) :
  (forall j, preserves R (body j)) ->
  forall n i, preserves R (for_loop n i body).
Proof.
  intros Hbody. induction n as [|n IH]; intros i; cbn [for_loop].
  - apply preserves_ret.
  - apply preserves_bind; [apply Hbody|]. intros _. apply IH.
Qed.

End Preserves.

Lemma only_events_refl P w : only_events P w w.
Proof.
  split; [reflexivity|]. exists []. split; [symmetry; apply app_nil_r|].
  reflexivity.
Qed.

Lemma only_events_trans P w1 w2 w3 :
  only_events P w1 w2 -> only_events P w2 w3 -> only_events P w1 w3.
Proof.
  intros (Hv1 & d1 & Ht1 & Hp1) (Hv2 & d2 & Ht2 & Hp2).
  split; [congruence|]. exists (d1 ++ d2).
  split; [rewrite Ht2, Ht1; symmetry; apply app_assoc|].
  rewrite forallb_app, Hp1, Hp2. reflexivity.
Qed.

Lemma only_events_advance P dt dr dm d s w :
  forallb P d = true -> only_events P w (advance dt dr dm d s w).
Proof. intros Hd. split; [reflexivity|]. exists d. split; [reflexivity|exact Hd]. Qed.

Lemma framed_refl w : framed w w.
Proof. exists []. split; [symmetry; apply app_nil_r|reflexivity]. Qed.

Lemma framed_trans w1 w2 w3 : framed w1 w2 -> framed w2 w3 -> framed w1 w3.
Proof.
  intros (d1 & Ht1 & Hf1) (d2 & Ht2 & Hf2). exists (d1 ++ d2).
  split; [rewrite Ht2, Ht1; symmetry; apply app_assoc|].
  unfold sent in *. rewrite flat_map_app, length_app, exchanges_app. lia.
Qed.

Lemma framed_advance dt dr dm d s w :
  length (sent d) = (4 * exchanges d)%nat -> framed w (advance dt dr dm d s w).
Proof. intros Hd. exists d. split; [reflexivity|exact Hd]. Qed.

Lemma keeps_samples_trans w1 w2 w3 :
  keeps_samples w1 w2 -> keeps_samples w2 w3 -> keeps_samples w1 w3.
Proof. unfold keeps_samples. congruence. Qed.

(** The calls that always return, as [advance] from the starting state;
    [tac] settles what [R] asks of the new events. *)
Ltac by_run R_advance tac :=
  apply preserves_run; intros ?w; do 2 eexists;
  (split;
   [first [apply SPI_beginTransaction_run | apply SPI_endTransaction_run
          | apply micros_run | apply frameNOP_run | apply rvsReady_run
          | apply writeRegHWord_run]
   | apply R_advance; tac]).

Lemma preserves_samples_store R i v :
  (forall w, R w w) ->
  (forall w, R w (advance 0 0 0 [EvStore i v] (<[Z.to_nat i := v]> (samples w)) w)) ->
  preserves R (samples_store i v).
Proof.
  intros Hrefl HR w. unfold samples_store.
  destruct (in_bounds i w) eqn:Hb; [|exact I].
  assert (E : samples_store i v w =
    Done tt (advance 0 0 0 [EvStore i v] (<[Z.to_nat i := v]> (samples w)) w)).
  { apply samples_store_run. unfold in_bounds in Hb.
    apply andb_true_iff in Hb as [H1 H2].
    apply Z.leb_le in H1. apply Z.ltb_lt in H2. lia. }
  unfold samples_store in E. rewrite Hb in E. rewrite E. apply HR.
Qed.


Lemma capture_fast_preserves R fuel N :
  (forall w, R w w) ->
  (forall w1 w2 w3, R w1 w2 -> R w2 w3 -> R w1 w3) ->
  preserves R SPI_beginTransaction -> preserves R SPI_endTransaction ->
  preserves R frameNOP -> preserves R rvsReady -> preserves R micros ->
  (forall i v, preserves R (samples_store i v)) ->
  preserves R (capture_fast fuel N).
Proof.
  intros Hrefl Htrans Hb He Hf Hr Hm Hs. unfold capture_fast.
  apply preserves_bind; [exact Htrans|exact Hb|intros _].
  apply preserves_bind; [exact Htrans|exact Hf|intros _].
  apply preserves_bind; [exact Htrans|exact He|intros _].
  apply preserves_bind;
    [exact Htrans|apply preserves_spin_until; assumption|intros _].
  apply preserves_bind; [exact Htrans|exact Hm|intros t0].
  apply preserves_bind; [exact Htrans|exact Hb|intros _].
  apply preserves_bind; [exact Htrans| |intros _].
  { apply preserves_for_loop; [exact Hrefl|exact Htrans|]. intros j.
    apply preserves_bind;
      [exact Htrans|apply preserves_spin_until; assumption|intros _].
    apply preserves_bind; [exact Htrans|exact Hf|intros v]. apply Hs. }
  apply preserves_bind; [exact Htrans|exact He|intros _].
  apply preserves_bind; [exact Htrans|exact Hm|intros t1].
  apply preserves_ret. exact Hrefl.
Qed.

Lemma adsxConfigureBasic_preserves R fuel :
  (forall w, R w w) ->
  (forall w1 w2 w3, R w1 w2 -> R w2 w3 -> R w1 w3) ->
  preserves R SPI_beginTransaction -> preserves R SPI_endTransaction ->
  preserves R frameNOP -> preserves R rvsReady ->
  (forall addr data, preserves R (writeRegHWord addr data)) ->
  preserves R (adsxConfigureBasic fuel).
Proof.
  intros Hrefl Htrans Hb He Hf Hr Hw. unfold adsxConfigureBasic.
  apply preserves_bind; [exact Htrans|exact Hb|intros _].
  apply preserves_bind; [exact Htrans|intros w; apply Hrefl|intros vr].
  apply preserves_bind; [exact Htrans|apply Hw|intros _].
  apply preserves_bind; [exact Htrans|exact Hf|intros _].
  apply preserves_bind; [exact Htrans|exact He|intros _].
  apply preserves_bind;
    [exact Htrans|apply preserves_spin_until; assumption|intros _].
  apply preserves_bind; [exact Htrans|exact Hb|intros _].
  apply preserves_bind; [exact Htrans|exact Hf|intros _].
  exact He.
Qed.




Lemma configure_events_exchange out inp :
  forallb configure_event (exchange_trace out inp) = true.
Proof.
  unfold exchange_trace. rewrite !forallb_app.
  assert (H : forallb configure_event (zip_with EvTransfer out inp) = true).
  { revert inp. induction out as [|o out IH]; intros [|i inp];
      try reflexivity. apply IH. }
  rewrite H. reflexivity.
Qed.

(** X9. Whatever the fuel, [adsxConfigureBasic] leaves the sample buffer
    and [vRange] as they are, never reads the clock, and touches no pin but
    chip select and RVS. *)
Theorem adsxConfigureBasic_leaves_buffer fuel w :
  match adsxConfigureBasic fuel w with
  | Done _ w' | Spinning w' =>
      samples w' = samples w /\ vRange w' = vRange w /\
      exists delta, trace w' = trace w ++ delta /\
        forallb configure_event delta = true
  | OutOfBounds _ => False
  end.
Proof.
  assert (H1 : outcome_rel (only_events configure_event) w
                 (adsxConfigureBasic fuel w)).
  { apply (adsxConfigureBasic_preserves (only_events configure_event));
      try (by_run only_events_advance
             ltac:(first [reflexivity | apply configure_events_exchange])).
    - apply only_events_refl.
    - apply only_events_trans.
    - intros addr data.
      by_run only_events_advance ltac:(apply configure_events_exchange). }
  assert (H2 : outcome_rel keeps_samples w (adsxConfigureBasic fuel w)).
  { apply (adsxConfigureBasic_preserves keeps_samples);
      try (apply preserves_run; intros w0; do 2 eexists;
           (split;
            [first [apply SPI_beginTransaction_run
                   | apply SPI_endTransaction_run | apply frameNOP_run
                   | apply rvsReady_run | apply writeRegHWord_run]
            | reflexivity])).
    - reflexivity.
    - apply keeps_samples_trans.
    - intros addr data. apply preserves_run. intros w0. do 2 eexists.
      split; [apply writeRegHWord_run|reflexivity]. }
  rewrite adsxConfigureBasic_head in *.
  destruct (configure_flush_trace fuel
              (advance 8 0 0
                 (configure_head_trace (board w) (n_transfer w) (vRange w))
                 (samples w) w)) as [rest Hrest].
  destruct (configure_flush fuel _) as [a w'|i|w']; cbn [outcome_rel] in *;
    try discriminate Hrest;
    (split; [exact H2|exact H1]).
Qed.

(** X10. Transfers come four to a chip-select assertion: in what
    [capture_fast] and [adsxConfigureBasic] have done, whether they
    returned or are still waiting for RVS, the number of bytes sent is
    four times the number of exchanges. *)
Theorem transfers_framed_by_four fuel N w :
  outcome_rel framed w (capture_fast fuel N w) /\
  outcome_rel framed w (adsxConfigureBasic fuel w).
Proof.
  split.
  - apply (capture_fast_preserves framed);
      try (by_run framed_advance ltac:(reflexivity)).
    + apply framed_refl.
    + apply framed_trans.
    + intros i v. apply preserves_samples_store; [apply framed_refl|].
      intros w0. apply framed_advance. reflexivity.
  - apply (adsxConfigureBasic_preserves framed);
      try (by_run framed_advance ltac:(reflexivity)).
    + apply framed_refl.
    + apply framed_trans.
    + intros addr data. by_run framed_advance ltac:(reflexivity).
Qed.

(** ** A device that stops answering *)

Lemma spin_until_never_ready : forall fuel w,
  (forall k, rvs_level (board w) (n_read w + k) = false) ->
  spin_until rvsReady fuel w =
  Spinning (advance 0 fuel 0 (replicate fuel (EvDigitalRead PIN_RVS LOW))
              (samples w) w).
Proof.
  induction fuel as [|fuel IH]; intros w Hlow; cbn [spin_until].
  - rewrite advance_id. reflexivity.
  - run_with rvsReady_run.
    assert (E : rvs_level (board w) (n_read w) = false)
      by (rewrite <- (Hlow 0%nat); f_equal; lia).
    rewrite E, IH.
    + autorewrite with world. reflexivity.
    + intros k. autorewrite with world. rewrite <- (Hlow (S k)). f_equal. lia.
Qed.

Lemma bind_Spinning {A B : Type} (c : M A) (k : A -> M B) w w' :
  c w = Spinning w' -> bind c k w = Spinning w'.
Proof. intros H. unfold bind. rewrite H. reflexivity. Qed.

(** X11. There is no timeout: if RVS never reads high again, neither
    [capture_fast] nor [adsxConfigureBasic] returns, however long they
    poll. [capture_fast] is stuck after its start-conversion frame, with
    no clock reading taken and the buffer untouched; [adsxConfigureBasic]
    after the register write and the first no-op frame. *)
Theorem unresponsive_device_blocks w :
  (forall k, rvs_level (board w) (n_read w + k) = false) ->
  forall fuel N,
    (exists w',
       capture_fast fuel N w = Spinning w' /\
       trace w' = trace w ++
         [EvBeginTransaction] ++
         exchange_trace nop_frame (rx4 (board w) (n_transfer w)) ++
         [EvEndTransaction] ++
         replicate fuel (EvDigitalRead PIN_RVS LOW) /\
       samples w' = samples w) /\
    (exists w',
       adsxConfigureBasic fuel w = Spinning w' /\
       trace w' = trace w ++
         configure_head_trace (board w) (n_transfer w) (vRange w) ++
         replicate fuel (EvDigitalRead PIN_RVS LOW)).
Proof.
  intros Hlow fuel N. split.
  - eexists. split.
    + unfold capture_fast.
      run_with SPI_beginTransaction_run.
      run_with frameNOP_run.
      run_with SPI_endTransaction_run.
      apply bind_Spinning. rewrite spin_until_never_ready.
      * autorewrite with world. reflexivity.
      * intros k. autorewrite with world. apply Hlow.
    + split; [|reflexivity]. rewrite trace_advance, <- !app_assoc.
      reflexivity.
  - eexists. split.
    + rewrite adsxConfigureBasic_head. unfold configure_flush.
      apply bind_Spinning. rewrite spin_until_never_ready.
      * autorewrite with world. reflexivity.
      * intros k. autorewrite with world. apply Hlow.
    + rewrite trace_advance. reflexivity.
Qed.

Lemma unresponsive_device_blocks_witness :
  (forall k, rvs_level (board (boot dead_board 1))
               (n_read (boot dead_board 1) + k) = false) /\
  exists w', capture_fast 1000 256 (boot dead_board 1) = Spinning w'.
Proof.
  assert (H : forall k, rvs_level (board (boot dead_board 1))
                          (n_read (boot dead_board 1) + k) = false)
    by (intros k; reflexivity).
  split; [exact H|].
  generalize H. generalize (boot dead_board 1). intros w Hw.
  destruct (proj1 (unresponsive_device_blocks w Hw 1000%nat 256))
    as (w' & E & _).
  exists w'. exact E.
Defined.

(** ** Past the end of the buffer *)













(** ** The sketch: [setup] and [loop] *)

Lemma sk_bind_Done {A B : Type} (c : Sk A) (k : A -> Sk B) log w a log1 w1 :
  c log w = Done (a, log1) w1 -> sk_bind c k log w = k a log1 w1.
Proof. intros H. unfold sk_bind, bind. rewrite H. reflexivity. Qed.

Lemma lift_Done {A : Type} (c : M A) log w a w1 :
  c w = Done a w1 -> lift c log w = Done (a, log) w1.
Proof. intros H. unfold lift, bind. rewrite H. reflexivity. Qed.

Lemma act_run a log w :
  act a log w = Done (tt, log ++ [(length (trace w), a)]) w.
Proof. reflexivity. Qed.

(** One step of [setup] or [loop]: a console call, or a lifted call run
    by its equation. *)
Ltac sk_act :=
  erewrite sk_bind_Done by (apply act_run); autorewrite with world.
Ltac sk_lift lem :=
  erewrite sk_bind_Done by (apply lift_Done; lem); autorewrite with world.

Lemma setup_run build k fuel log w :
  first_ready (board w) (n_read w) k -> (k < fuel)%nat ->
  let d := setup_trace (board w) (n_transfer w) (vRange w) k in
  setup build fuel log w =
  Done (tt, log ++ setup_console build (length (trace w))
                     (length (trace w ++ d)))
       (advance 12 (S k) 0 d (samples w) w).
Proof.
  intros Hk Hfuel d. unfold setup.
  do 3 sk_act.
  sk_lift ltac:(apply digitalWrite_run).
  sk_act.
  change (PIN_RST >=? 0) with false. cbv iota.
  erewrite sk_bind_Done by reflexivity.
  do 2 sk_act.
  sk_lift ltac:(apply (adsxConfigureBasic_run k);
                [autorewrite with world; exact Hk|exact Hfuel]).
  do 4 sk_act.
  rewrite act_run. autorewrite with world.
  unfold setup_console, setup_banner, d, setup_trace.
  rewrite <- !app_assoc, (length_app (trace w) [_]).
  reflexivity.
Qed.

Lemma print_samples_run : forall n i log w,
  0 <= i -> i + Z.of_nat n <= Z.of_nat (length (samples w)) ->
  sk_for_n n i print_sample log w =
  Done (tt, log ++ samples_console (samples w) (length (trace w)) n i)
       (advance 0 0 0 (map (fun j => EvLoad (i + Z.of_nat j)) (seq 0 n))
          (samples w) w).
Proof.
  induction n as [|n IH]; intros i log w Hi Hlen.
  - cbn. rewrite app_nil_r, advance_id. reflexivity.
  - cbn [sk_for_n].
    erewrite sk_bind_Done; cycle 1.
    { unfold print_sample.
      sk_lift ltac:(apply (samples_load_run i (samples w !!! Z.to_nat i));
                    [exact Hi|apply list_lookup_lookup_total_lt; lia]).
      sk_act. rewrite act_run. autorewrite with world. reflexivity. }
    rewrite IH by (autorewrite with world; lia).
    autorewrite with world. f_equal.
    + f_equal. rewrite <- !app_assoc, length_app. reflexivity.
    + cbn [seq map]. rewrite <- seq_shift, map_map.
      f_equal. cbn [app]. f_equal; [f_equal; lia|].
      apply map_ext. intros j. f_equal. lia.
Qed.

Lemma loop_after_capture build fuel log w dt w1 :
  capture_fast fuel SAMPLE_COUNT w = Done dt w1 ->
  length (samples w1) = Z.to_nat SAMPLE_COUNT ->
  let s := decoded build 0 (Z.to_nat SAMPLE_COUNT) (samples w1) in
  let d := decode_trace build 0 (Z.to_nat SAMPLE_COUNT) (samples w1) in
  loop build fuel log w =
  Done (tt, log ++ loop_console dt s (length (trace w1 ++ d)))
       (advance 0 0 0 (d ++ loop_loads) s w1).
Proof.
  intros Hcap Hlen s d. unfold loop.
  sk_lift ltac:(exact Hcap). cbv zeta.
  sk_lift ltac:(apply decode_samples_in_place_run;
                [reflexivity|rewrite Hlen; reflexivity]).
  fold s d.
  do 8 sk_act.
  unfold sk_for.
  change (Z.to_nat (Z.min 4 SAMPLE_COUNT - 0)) with 4%nat.
  change (Z.max 0 (SAMPLE_COUNT - 4)) with 252.
  change (Z.to_nat (SAMPLE_COUNT - 252)) with 4%nat.
  assert (Hs : length s = 256%nat)
    by (unfold s; rewrite decoded_length; exact Hlen).
  erewrite sk_bind_Done
    by (apply print_samples_run; autorewrite with world; lia).
  autorewrite with world.
  sk_act.
  erewrite sk_bind_Done
    by (apply print_samples_run; autorewrite with world; lia).
  autorewrite with world.
  sk_act. rewrite act_run. autorewrite with world.
  f_equal.
  - f_equal. unfold loop_console, loop_report.
    set (X := map (fun j => EvLoad (0 + Z.of_nat j)) (seq 0 4)).
    set (Y := map (fun j => EvLoad (252 + Z.of_nat j)) (seq 0 4)).
    replace (length (trace w1 ++ d ++ X))
      with (length (trace w1 ++ d) + 4)%nat
      by (rewrite (app_assoc (trace w1)), (length_app (trace w1 ++ d));
          reflexivity).
    replace (length (trace w1 ++ (d ++ X) ++ Y))
      with (length (trace w1 ++ d) + 8)%nat
      by (rewrite <- (app_assoc d), (app_assoc (trace w1)),
            (length_app (trace w1 ++ d));
          reflexivity).
    rewrite <- !app_assoc. reflexivity.
  - rewrite <- !app_assoc. reflexivity.
Qed.

Lemma samples_console_actions s t : forall n i,
  map snd (samples_console s t n i) =
  flat_map print_of
    (map (fun j => s !!! Z.to_nat (i + Z.of_nat j)) (seq 0 n)).
Proof.
  intros n. revert t. induction n as [|n IH]; intros t i.
  - reflexivity.
  - cbn [samples_console map seq app flat_map print_of snd].
    rewrite IH, <- seq_shift, map_map. rewrite Z.add_0_r.
    do 3 f_equal. apply map_ext. intros j. do 2 f_equal. lia.
Qed.

Lemma decode_trace_exchanges build : forall n i s,
  exchanges (decode_trace build i n s) = 0%nat.
Proof.
  induction n as [|n IH]; intros i s; cbn [decode_trace].
  - reflexivity.
  - destruct (s !! i); [|reflexivity].
    rewrite exchanges_app, IH. reflexivity.
Qed.

Lemma capture_trace_exchanges b n m k0 ks :
  exchanges (capture_trace b n m k0 ks) = S (length ks).
Proof.
  unfold capture_trace. rewrite !exchanges_app.
  rewrite (proj1 (exchange_trace_reading _ _)).
  rewrite (proj1 (wait_trace_reading k0)).
  rewrite (proj1 (burst_trace_reading b ks _ _)).
  cbn. lia.
Qed.

(** The code that ends at index [i] of the buffer after a [loop] that
    started at transfer [n]. *)
Lemma loop_run build log w :
  samples_ok w -> responsive (board w) ->
  exists fuel0 k0 ks, length ks = 256%nat /\
    forall fuel, (fuel0 <= fuel)%nat ->
    exists log' w',
      let b := board w in
      let n := n_transfer w in
      let dt := u32 (u32 (clock_us b (n_micros w + 1)) -
                     u32 (clock_us b (n_micros w))) in
      let code (i : nat) := decode_sample build (rx_word b (n + 4 + 4 * i)) in
      loop build fuel log w = Done (tt, log') w' /\
      (forall i, (i < 256)%nat -> samples w' !! i = Some (code i)) /\
      length (samples w') = 256%nat /\
      map snd (drop (length log) log') =
        loop_report dt ++
        flat_map print_of (map code [0; 1; 2; 3]%nat) ++
        [APrintStr Text.last_4] ++
        flat_map print_of (map code [252; 253; 254; 255]%nat) ++
        [APrintln; ADelay 2000] /\
      trace w' = trace w ++
        capture_trace b n (n_micros w) k0 ks ++
        decode_trace build 0 256 (burst_samples b (n + 4) 0 256 (samples w)) ++
        loop_loads /\
      n_transfer w' = (n + 1028)%nat /\ board w' = b /\ vRange w' = vRange w.
Proof.
  intros Hs Hb. unfold samples_ok in Hs.
  change (Z.to_nat SAMPLE_COUNT) with 256%nat in Hs.
  destruct (responsive_first_ready (board w) (n_read w) Hb) as [k0 Hk0].
  destruct (waits_exist (board w) Hb 256 (n_read w + S k0)%nat)
    as (ks & Hlen & Hks).
  exists (S (max_list (k0 :: ks))), k0, ks. split; [exact Hlen|].
  intros fuel Hfuel. apply fuel_covers in Hfuel.
  assert (Hcap := capture_fast_run fuel k0 ks w Hk0 Hks Hfuel).
  rewrite Hlen in Hcap. change (Z.of_nat 256) with SAMPLE_COUNT in Hcap.
  specialize (Hcap ltac:(rewrite Hs; unfold SAMPLE_COUNT; lia)
                   ltac:(reflexivity)).
  do 2 eexists. cbv zeta.
  split.
  { apply (loop_after_capture build fuel log w _ _ Hcap).
    rewrite samples_advance, burst_samples_length. exact Hs. }
  change (Z.to_nat SAMPLE_COUNT) with 256%nat.
  autorewrite with world.
  set (s1 := burst_samples (board w) (n_transfer w + 4) 0 256 (samples w)).
  assert (Hs1 : length s1 = 256%nat)
    by (unfold s1; rewrite burst_samples_length; exact Hs).
  assert (Hcode : forall i, (i < 256)%nat ->
            decoded build 0 256 s1 !! i =
            Some (decode_sample build
                    (rx_word (board w) (n_transfer w + 4 + 4 * i)))).
  { intros i Hi. rewrite decoded_inside by lia.
    unfold s1.
    rewrite (burst_samples_inside _ _ _ 0%nat _ i) by lia. reflexivity. }
  split; [exact Hcode|].
  split; [rewrite decoded_length; exact Hs1|].
  split.
  { rewrite drop_app_length. unfold loop_console.
    rewrite !map_app, !map_map. cbn [snd].
    rewrite !samples_console_actions, map_id.
    cbn [seq map]. cbn [snd].
    assert (Htot : forall i, (i < 256)%nat ->
              decoded build 0 256 s1 !!! i =
              decode_sample build
                (rx_word (board w) (n_transfer w + 4 + 4 * i)))
      by (intros i Hi; apply list_lookup_total_correct, Hcode; exact Hi).
    change (Z.to_nat (0 + Z.of_nat 0)) with 0%nat.
    change (Z.to_nat (0 + Z.of_nat 1)) with 1%nat.
    change (Z.to_nat (0 + Z.of_nat 2)) with 2%nat.
    change (Z.to_nat (0 + Z.of_nat 3)) with 3%nat.
    change (Z.to_nat (252 + Z.of_nat 0)) with 252%nat.
    change (Z.to_nat (252 + Z.of_nat 1)) with 253%nat.
    change (Z.to_nat (252 + Z.of_nat 2)) with 254%nat.
    change (Z.to_nat (252 + Z.of_nat 3)) with 255%nat.
    rewrite !Htot by lia.
    reflexivity. }
  split; [rewrite <- ?app_assoc; reflexivity|].
  split; [lia|]. split; reflexivity.
Qed.

(** X14. When RVS eventually reads high, [setup] returns. On the
    hardware it has released chip select (driven it high) before the first
    transfer, left the reset pin alone ([PIN_RST] is -1) and configured the
    device once, in three exchanges; the buffer and [vRange] are as they
    were; the banner, with the bit width and the 40.0 MHz of the SPI
    clock, is printed once the device is configured. *)
Theorem setup_configures_once build log w k0 :
  rvs_level (board w) (n_read w + k0) = true ->
  exists k, first_ready (board w) (n_read w) k /\
    forall fuel, (k < fuel)%nat ->
    exists log' w',
      setup build fuel log w = Done (tt, log') w' /\
      trace w' = trace w ++
        [EvDigitalWrite PIN_CS HIGH] ++
        configure_trace (board w) (n_transfer w) (vRange w) k /\
      exchanges (drop (length (trace w)) (trace w')) = 3%nat /\
      samples w' = samples w /\ vRange w' = vRange w /\
      log' = log ++
        map (pair (length (trace w)))
          [ASerialBegin 115200; ADelay 2000; APinMode PIN_CS OUTPUT] ++
        map (pair (length (trace w) + 1)%nat)
          [APinMode PIN_RVS INPUT; ADelay 20; ASPIBegin] ++
        map (pair (length (trace w')))
          [APrintStr Text.banner_device; APrintInt (ADSX_BITS build);
           APrintStr Text.banner_spi;
           APrintFloat (F64_div (F64_of_Z ADSX_SPI_HZ) (F32.lit64 1000000 0)) 1;
           APrintlnStr Text.banner_pacing] /\
      (F32.to_Q (F64_div (F64_of_Z ADSX_SPI_HZ) (F32.lit64 1000000 0)) == 40)%Q.
Proof.
  intros Hk0.
  destruct (first_ready_exists _ _ _ Hk0) as (k & _ & Hk).
  exists k. split; [exact Hk|]. intros fuel Hfuel.
  do 2 eexists. split; [apply (setup_run build k); assumption|].
  autorewrite with world. unfold setup_trace.
  split; [reflexivity|]. split.
  { rewrite drop_app_length, exchanges_app, configure_trace_exchanges.
    reflexivity. }
  split; [reflexivity|]. split; [reflexivity|].
  split; [reflexivity|]. vm_compute. reflexivity.
Qed.

Lemma setup_configures_once_witness :
  rvs_level (board (boot slow_board 1)) (n_read (boot slow_board 1) + 2)
    = true /\
  exists k, first_ready slow_board 0 k /\
    forall fuel, (k < fuel)%nat ->
    exists log' w',
      setup Bits18 fuel [] (boot slow_board 1) = Done (tt, log') w' /\
      exchanges (trace w') = 3%nat.
Proof.
  assert (H : rvs_level (board (boot slow_board 1))
                (n_read (boot slow_board 1) + 2) = true) by reflexivity.
  split; [exact H|].
  destruct (setup_configures_once Bits18 [] (boot slow_board 1) 2 H)
    as (k & Hk & Hrun).
  exists k. split; [exact Hk|]. intros fuel Hfuel.
  destruct (Hrun fuel Hfuel) as (log' & w' & E & _ & Hx & _).
  exists log', w'. split; [exact E|exact Hx].
Defined.

(** X15. With a device that keeps raising RVS, [loop] returns, and what
    it reports is the burst it has just captured: every one of the 256
    entries of the buffer is the code decoded from a frame of this burst
    (nothing of the old contents is left), the time printed is the one
    [capture_fast] returned, the rate is 256 / (time * 1e-6) in single
    precision, and the samples printed are entries 0 to 3 and 252 to 255.
    One [loop] makes 257 exchanges. *)
Theorem loop_reports_this_burst build log w :
  samples_ok w -> responsive (board w) ->
  exists fuel0, forall fuel, (fuel0 <= fuel)%nat ->
    exists log' w',
      let b := board w in
      let n := n_transfer w in
      let dt := u32 (u32 (clock_us b (n_micros w + 1)) -
                     u32 (clock_us b (n_micros w))) in
      let code (i : nat) := decode_sample build (rx_word b (n + 4 + 4 * i)) in
      loop build fuel log w = Done (tt, log') w' /\
      (forall i, (i < 256)%nat -> samples w' !! i = Some (code i)) /\
      map snd (drop (length log) log') =
        [APrintStr Text.captured; APrintInt 256; APrintStr Text.samples_in;
         APrintInt dt; APrintStr Text.us_approx;
         APrintFloat (F32.div (F32.of_Z 256)
                              (F32.mul (F32.of_Z dt) (F32.lit 1 6))) 1;
         APrintlnStr Text.sa_per_s; APrintStr Text.first_4] ++
        flat_map print_of (map code [0; 1; 2; 3]%nat) ++
        [APrintStr Text.last_4] ++
        flat_map print_of (map code [252; 253; 254; 255]%nat) ++
        [APrintln; ADelay 2000] /\
      exchanges (drop (length (trace w)) (trace w')) = 257%nat.
Proof.
  intros Hs Hb.
  destruct (loop_run build log w Hs Hb) as (fuel0 & k0 & ks & Hlen & H).
  exists fuel0. intros fuel Hfuel.
  destruct (H fuel Hfuel)
    as (log' & w' & Hrun & Hcode & _ & Hlog & Htr & _).
  exists log', w'. cbv zeta.
  split; [exact Hrun|]. split; [exact Hcode|]. split; [exact Hlog|].
  rewrite Htr, drop_app_length, !exchanges_app.
  rewrite capture_trace_exchanges, decode_trace_exchanges, Hlen.
  reflexivity.
Qed.

Lemma loop_reports_this_burst_witness :
  samples_ok (boot ready_board 1) /\ responsive (board (boot ready_board 1)) /\
  exists fuel0, forall fuel, (fuel0 <= fuel)%nat ->
    exists log' w', loop Bits18 fuel [] (boot ready_board 1) = Done (tt, log') w'.
Proof.
  generalize (boot_samples_ok ready_board 1).
  assert (Hb : responsive (board (boot ready_board 1)))
    by exact ready_board_responsive.
  generalize Hb. generalize (boot ready_board 1). intros w Hw Hs.
  split; [exact Hs|]. split; [exact Hw|].
  destruct (loop_reports_this_burst Bits18 [] w Hs Hw) as [fuel0 H].
  exists fuel0. intros fuel Hfuel.
  destruct (H fuel Hfuel) as (log' & w' & E & _).
  exists log', w'. exact E.
Defined.

(** X16. [loop] is the only caller of [capture_fast] and
    [decode_samples_in_place], and it passes them the capacity of the
    buffer: whatever the fuel, [loop] never indexes [samples] out of
    bounds, the reads for the printed samples included. *)
Theorem loop_stays_in_bounds build fuel log w :
  samples_ok w ->
  match loop build fuel log w with
  | Done _ _ | Spinning _ => True
  | OutOfBounds _ => False
  end.
Proof.
  intros Hs. unfold samples_ok in Hs.
  assert (Hfit : 0 <= SAMPLE_COUNT <= Z.of_nat (length (samples w)))
    by (rewrite Hs; unfold SAMPLE_COUNT; lia).
  pose proof (safe_capture_fast SAMPLE_COUNT w Hfit fuel ltac:(reflexivity) w
                (indexed_below_start SAMPLE_COUNT w)) as Hsafe.
  unfold wp in Hsafe.
  destruct (capture_fast fuel SAMPLE_COUNT w) as [dt w1|i|w1] eqn:Hcap.
  - destruct Hsafe as [Hlen _].
    rewrite (loop_after_capture build fuel log w dt w1 Hcap)
      by (rewrite Hlen; exact Hs).
    exact I.
  - destruct Hsafe.
  - unfold loop, sk_bind, lift, bind. rewrite Hcap. exact I.
Qed.

Lemma loop_stays_in_bounds_witness :
  samples_ok (boot slow_board 1) /\
  forall i, loop Bits18 40 [] (boot slow_board 1) <> OutOfBounds i.
Proof.
  generalize (boot_samples_ok slow_board 1).
  generalize (boot slow_board 1). intros w Hs.
  split; [exact Hs|]. intros i E.
  pose proof (loop_stays_in_bounds Bits18 40 [] w Hs) as H.
  destruct (loop Bits18 40 [] w); [discriminate E|exact H|discriminate E].
Defined.

(** X17. From power-up, [setup] followed by the first [loop]: the words
    received by the first four exchanges (the reply to the register write,
    the two no-op frames of [adsxConfigureBasic] and the start-conversion
    frame of [capture_fast]) are never stored; entry [i] of the buffer is
    the code of the frame received by exchange [4 + i], that is at
    transfers [16 + 4 i] to [19 + 4 i]. The two calls make 260 exchanges. *)
Theorem first_burst_after_boot build b vr :
  responsive b ->
  exists fuel0, forall fuel, (fuel0 <= fuel)%nat ->
    exists log1 w1 log2 w2,
      setup build fuel [] (boot b vr) = Done (tt, log1) w1 /\
      loop build fuel log1 w1 = Done (tt, log2) w2 /\
      (forall i, (i < 256)%nat ->
         samples w2 !! i =
         Some (decode_sample build (rx_word b (16 + 4 * i)))) /\
      exchanges (trace w2) = 260%nat /\
      vRange w2 = vr.
Proof.
  intros Hb.
  destruct (responsive_first_ready b 0 Hb) as [k Hk].
  set (w0 := boot b vr).
  set (w1 := advance 12 (S k) 0
               (setup_trace (board w0) (n_transfer w0) (vRange w0) k)
               (samples w0) w0).
  set (log1 := [] ++ setup_console build (length (trace w0))
                 (length (trace w0 ++
                    setup_trace (board w0) (n_transfer w0) (vRange w0) k))).
  assert (Hs1 : samples_ok w1) by apply boot_samples_ok.
  destruct (loop_run build log1 w1 Hs1 Hb) as (fuel0 & k0 & ks & Hlen & H).
  exists (Nat.max (S k) fuel0). intros fuel Hfuel.
  destruct (H fuel ltac:(lia))
    as (log2 & w2 & Hrun & Hcode & _ & _ & Htr & _ & _ & Hvr).
  exists log1, w1, log2, w2.
  split; [apply (setup_run build k fuel [] w0); [exact Hk|lia]|].
  split; [exact Hrun|].
  split.
  { intros i Hi. rewrite (Hcode i Hi). reflexivity. }
  split; [|exact Hvr].
  rewrite Htr, !exchanges_app.
  rewrite capture_trace_exchanges, decode_trace_exchanges, Hlen.
  change (trace w1) with
    (setup_trace (board w0) (n_transfer w0) (vRange w0) k).
  unfold setup_trace. rewrite exchanges_app, configure_trace_exchanges.
  reflexivity.
Qed.

Lemma first_burst_after_boot_witness :
  responsive ready_board /\
  exists fuel0, forall fuel, (fuel0 <= fuel)%nat ->
    exists log1 w1 log2 w2,
      setup Bits18 fuel [] (boot ready_board 1) = Done (tt, log1) w1 /\
      loop Bits18 fuel log1 w1 = Done (tt, log2) w2 /\
      samples w2 !! 0%nat =
        Some (decode_sample Bits18 (rx_word ready_board 16)).
Proof.
  split; [exact ready_board_responsive|].
  destruct (first_burst_after_boot Bits18 ready_board 1 ready_board_responsive)
    as [fuel0 H].
  exists fuel0. intros fuel Hfuel.
  destruct (H fuel Hfuel) as (log1 & w1 & log2 & w2 & E1 & E2 & Hc & _).
  exists log1, w1, log2, w2. split; [exact E1|]. split; [exact E2|].
  exact (Hc 0%nat ltac:(lia)).
Defined.

(** ** Elapsed time *)

Lemma u32_sub_u32 a b : 0 <= a - b < 2 ^ 32 -> u32 (u32 a - u32 b) = a - b.
Proof.
  intros H. unfold u32. rewrite <- Zminus_mod. apply Z.mod_small. exact H.
Qed.

(** X18. The time [capture_fast] returns survives the wrap-around of
    [micros()]: with [clock_us] the time since power-up, of which
    [micros()] gives the low 32 bits, the result is the true difference of
    the two readings whenever that difference fits 32 bits, also when the
    counter wrapped in between. *)
Theorem capture_fast_elapsed_across_wrap N w :
  samples_ok w -> 0 <= N <= SAMPLE_COUNT -> responsive (board w) ->
  0 <= clock_us (board w) (n_micros w + 1) - clock_us (board w) (n_micros w)
    < 2 ^ 32 ->
  exists fuel0, forall fuel, (fuel0 <= fuel)%nat ->
    exists w',
      capture_fast fuel N w =
      Done (clock_us (board w) (n_micros w + 1) -
            clock_us (board w) (n_micros w)) w'.
Proof.
  intros Hs HN Hb Ht. unfold samples_ok, SAMPLE_COUNT in *.
  destruct (responsive_first_ready (board w) (n_read w) Hb) as [k0 Hk0].
  destruct (waits_exist (board w) Hb (Z.to_nat N) (n_read w + S k0)%nat)
    as (ks & Hlen & Hks).
  exists (S (max_list (k0 :: ks))). intros fuel Hfuel.
  apply fuel_covers in Hfuel.
  assert (EN : N = Z.of_nat (length ks)) by lia. subst N.
  eexists. rewrite <- (u32_sub_u32 _ _ Ht).
  apply (capture_fast_run fuel k0 ks); try assumption;
    change (2 ^ 32) with 4294967296; lia.
Qed.

Lemma slow_board_responsive : responsive slow_board.
Proof.
  intros n. exists (2 + 2 * n)%nat. cbn [rvs_level slow_board].
  replace (n + (2 + 2 * n))%nat with (2 + n * 3)%nat by lia.
  rewrite Nat.Div0.mod_add. reflexivity.
Qed.

Lemma capture_fast_elapsed_across_wrap_witness :
  samples_ok (boot slow_board 1) /\ 0 <= 2 <= SAMPLE_COUNT /\
  responsive (board (boot slow_board 1)) /\
  0 <= clock_us (board (boot slow_board 1)) (n_micros (boot slow_board 1) + 1)
       - clock_us (board (boot slow_board 1)) (n_micros (boot slow_board 1))
    < 2 ^ 32 /\
  u32 (clock_us slow_board 1) < u32 (clock_us slow_board 0) /\
  exists fuel0, forall fuel, (fuel0 <= fuel)%nat ->
    exists w', capture_fast fuel 2 (boot slow_board 1) = Done 4294967000 w'.
Proof.
  assert (H2 : 0 <= 2 <= SAMPLE_COUNT) by (unfold SAMPLE_COUNT; lia).
  assert (H4 : 0 <= clock_us (board (boot slow_board 1))
                      (n_micros (boot slow_board 1) + 1)
                    - clock_us (board (boot slow_board 1))
                        (n_micros (boot slow_board 1)) < 2 ^ 32)
    by (split; [discriminate|reflexivity]).
  split; [apply boot_samples_ok|]. split; [exact H2|].
  split; [exact slow_board_responsive|]. split; [exact H4|].
  split; [reflexivity|].
  exact (capture_fast_elapsed_across_wrap 2 (boot slow_board 1)
           (boot_samples_ok slow_board 1) H2 slow_board_responsive H4).
Defined.
